(** * The fake modem of fake_modem.c: line assembler and AT responder

    A shallow embedding of [send_response], [process_line] and
    [fake_modem_task] of [src/src/fake_modem.c], and the properties of the
    line framing and of the scripted responses.

    Bytes ([uint8_t], [char] as [strcmp] and the UART see it) are integers
    in [0, 256); [line_pos] is a C [int], kept in [Z]: the code holds it in
    [0, 127], so its increment never leaves the range of [int].  The stack
    array [line_buf] is a list of [LINE_BUF_SIZE] cells whose first contents
    are arbitrary; a store outside the array and a string read that finds no
    NUL are faults (undefined behaviour in C), written out as [None]. *)

From Stdlib Require Import ZArith Lia String Ascii.
From stdpp Require Import base numbers list.

#[local] Open Scope Z_scope.

(** ** Constants and string literals *)

Definition LINE_BUF_SIZE : Z := 128.
Definition FAKE_MODEM_UART_NUM : Z := 2.

Definition NUL : Z := 0.
Definition CR : Z := 13.
Definition LF : Z := 10.

(** The character codes of a printable text. *)
Definition char_codes (s : string) : list Z :=
  map (fun c => Z.of_N (N_of_ascii c)) (list_ascii_of_string s).

(** A C string literal as it lies in memory: its bytes, then NUL. *)
Definition c_literal (body : list Z) : list Z := body ++ [NUL].

Definition CMD_AT : list Z := char_codes "AT".
Definition CMD_AT_CSQ : list Z := char_codes "AT+CSQ".

Definition RESP_OK : list Z := [CR; LF] ++ char_codes "OK" ++ [CR; LF].
Definition RESP_CSQ : list Z :=
  [CR; LF] ++ char_codes "+CSQ: 20,99" ++ [CR; LF] ++ char_codes "OK" ++ [CR; LF].
Definition RESP_ERROR : list Z := [CR; LF] ++ char_codes "ERROR" ++ [CR; LF].

(** ** The C string functions the code calls *)

(** [strlen]: the number of bytes before the first NUL; a read past the end
    of the array is a fault. *)
Fixpoint strlen (s : list Z) : option Z :=
  match s with
  | [] => None
  | c :: s' => if c =? NUL then Some 0 else Z.succ <$> strlen s'
  end.

(** [strcmp]: the difference of the first pair of bytes that differ, 0 when
    both strings end together; a read past the end of either array is a
    fault. *)
Fixpoint strcmp (a b : list Z) : option Z :=
  match a, b with
  | x :: a', y :: b' =>
      if x =? y then (if x =? NUL then Some 0 else strcmp a' b')
      else Some (x - y)
  | _, _ => None
  end.

(** The bytes of an array read as a C string: those before the first NUL. *)
Fixpoint c_string (mem : list Z) : list Z :=
  match mem with
  | [] => []
  | c :: mem' => if c =? NUL then [] else c :: c_string mem'
  end.

(** ** What the task does to the outside, and what it is given *)

Inductive message : Type :=
  | MsgReceived (line : list Z)   (* the "received" line of [process_line] *)
  | MsgTooLong.                   (* the "line too long, discarding" line *)

(** [Store] and [Dispatch] are bookkeeping of the model: every store into
    [line_buf] with its index, and every call of [process_line] with the
    bytes accumulated at the call, [line_buf[0 .. line_pos)]. *)
Inductive event : Type :=
  | Store (idx : Z) (v : Z)
  | Dispatch (accumulated : list Z)
  | Printf (m : message)
  | UartWrite (port : Z) (bytes : list Z).

(** One outcome of [uart_read_bytes(FAKE_MODEM_UART_NUM, &byte, 1, 100 ms)]. *)
Inductive poll : Type :=
  | RxByte (b : Z)     (* returns 1, the byte is stored in [byte] *)
  | RxTimeout          (* returns 0 *)
  | RxError.           (* returns -1 *)

(** The locals of [fake_modem_task] and the inbound stream still to come. *)
Record world : Type := World {
  line_buf : list Z;
  line_pos : Z;
  byte : Z;
  uart_rx : list poll
}.

(** ** A state, fault and trace monad for the task *)

Definition M (A : Type) : Type := world -> option (A * world * list event).

Definition ret {A} (a : A) : M A := fun w => Some (a, w, []).

Definition bind {A B} (c : M A) (k : A -> M B) : M B :=
  fun w =>
    match c w with
    | None => None
    | Some (a, w1, t1) =>
        match k a w1 with
        | None => None
        | Some (b, w2, t2) => Some (b, w2, t1 ++ t2)
        end
    end.

Notation "x <- c ;; k" := (bind c (fun x => k))
  (at level 100, c at next level, right associativity).
Notation "c ;; k" := (bind c (fun _ => k))
  (at level 100, right associativity).

Definition fault {A} : M A := fun _ => None.
Definition emit (e : event) : M unit := fun w => Some (tt, w, [e]).
Definition lift {A} (o : option A) : M A :=
  fun w => match o with Some a => Some (a, w, []) | None => None end.

Definition get_line_buf : M (list Z) := fun w => Some (line_buf w, w, []).
Definition get_line_pos : M Z := fun w => Some (line_pos w, w, []).
Definition get_byte : M Z := fun w => Some (byte w, w, []).

Definition set_line_pos (p : Z) : M unit :=
  fun w => Some (tt, World (line_buf w) p (byte w) (uart_rx w), []).

(** [line_buf[i] = v]. *)
Definition store_line_buf (i v : Z) : M unit :=
  fun w =>
    if (0 <=? i) && (i <? LINE_BUF_SIZE) && (i <? Z.of_nat (length (line_buf w)))
    then Some (tt, World (<[Z.to_nat i := v]> (line_buf w)) (line_pos w)
                         (byte w) (uart_rx w), [Store i v])
    else None.

(** [uart_read_bytes] asked for one byte: takes the next outcome of the
    inbound stream; a stream with nothing more to come times out. *)
Definition uart_read_bytes : M Z :=
  fun w =>
    match uart_rx w with
    | [] => Some (0, w, [])
    | RxByte b :: rest => Some (1, World (line_buf w) (line_pos w) b rest, [])
    | RxTimeout :: rest =>
        Some (0, World (line_buf w) (line_pos w) (byte w) rest, [])
    | RxError :: rest =>
        Some (-1, World (line_buf w) (line_pos w) (byte w) rest, [])
    end.

(** [uart_write_bytes(port, src, size)]. *)
Definition uart_write_bytes (port : Z) (src : list Z) (size : Z) : M unit :=
  if (0 <=? size) && (size <=? Z.of_nat (length src))
  then emit (UartWrite port (take (Z.to_nat size) src))
  else fault.

(** [printf] with one [%s] argument. *)
Definition printf_received (line : list Z) : M unit :=
  n <- lift (strlen line) ;;
  emit (Printf (MsgReceived (take (Z.to_nat n) line))).

(** ** The functions of fake_modem.c *)

Definition send_response (response : list Z) : M unit :=
  n <- lift (strlen response) ;;
  uart_write_bytes FAKE_MODEM_UART_NUM response n.

Definition process_line (line : list Z) : M unit :=
  printf_received line ;;
  c <- lift (strcmp line (c_literal CMD_AT)) ;;
  if c =? 0 then send_response (c_literal RESP_OK)
  else
    c' <- lift (strcmp line (c_literal CMD_AT_CSQ)) ;;
    if c' =? 0 then send_response (c_literal RESP_CSQ)
    else send_response (c_literal RESP_ERROR).

(** One turn of the [while (1)] loop. *)
Definition loop_body : M unit :=
  n <- uart_read_bytes ;;
  if n <=? 0 then ret tt
  else
    b <- get_byte ;;
    if (b =? CR) || (b =? LF) then
      pos <- get_line_pos ;;
      if pos >? 0 then
        store_line_buf pos NUL ;;
        buf <- get_line_buf ;;
        emit (Dispatch (take (Z.to_nat pos) buf)) ;;
        process_line buf ;;
        set_line_pos 0
      else ret tt
    else
      pos <- get_line_pos ;;
      store_line_buf pos b ;;
      set_line_pos (pos + 1) ;;
      pos' <- get_line_pos ;;
      if pos' >=? LINE_BUF_SIZE - 1 then
        emit (Printf MsgTooLong) ;;
        set_line_pos 0
      else ret tt.

(** [fuel] turns of the loop. *)
Fixpoint task_loop (fuel : nat) : M unit :=
  match fuel with
  | O => ret tt
  | S k => loop_body ;; task_loop k
  end.

(** [fake_modem_task], cut after [fuel] turns of its endless loop. *)
Definition fake_modem_task (fuel : nat) : M unit :=
  set_line_pos 0 ;;
  task_loop fuel.

(** The task as it starts: [line_buf] holds whatever the stack held,
    [line_pos] is set by the task itself, and [byte] is read only after
    [uart_read_bytes] has stored into it. *)
Definition boot (stack : list Z) (rx : list poll) : world :=
  World stack 0 0 rx.

Definition is_terminator (b : Z) : bool := (b =? CR) || (b =? LF).

(** A run of body bytes: no ['\r'] and no ['\n'] in it. *)
Definition no_terminator (s : list Z) : Prop :=
  Forall (fun b => is_terminator b = false) s.

#[global] Instance message_eq_dec : EqDecision message.
Proof. solve_decision. Defined.

#[global] Instance event_eq_dec : EqDecision event.
Proof. solve_decision. Defined.

(** ** Reading a trace *)

Definition tx_of (e : event) : list Z :=
  match e with UartWrite _ bytes => bytes | _ => [] end.

(** All bytes written to the outbound stream, in order. *)
Definition tx_bytes (t : list event) : list Z := concat (map tx_of t).

(** The response writes, one per [uart_write_bytes] call. *)
Definition responses (t : list event) : list (list Z) :=
  omap (fun e => match e with UartWrite _ bytes => Some bytes | _ => None end) t.

(** The lines handed to [process_line], one per call. *)
Definition dispatched (t : list event) : list (list Z) :=
  omap (fun e => match e with Dispatch acc => Some acc | _ => None end) t.

(** The lines [process_line] logged as received: its argument as it read
    it, a NUL-terminated string. *)
Definition received (t : list event) : list (list Z) :=
  omap (fun e => match e with Printf (MsgReceived l) => Some l | _ => None end) t.

(** How many times the overflow diagnostic was printed. *)
Definition overflows (t : list event) : nat :=
  length (filter (fun e => e = Printf MsgTooLong) t).

(** The indices of the stores into [line_buf]. *)
Definition store_indices (t : list event) : list Z :=
  omap (fun e => match e with Store i _ => Some i | _ => None end) t.

Definition trace_of {A} (r : option (A * world * list event)) : list event :=
  match r with Some (_, _, t) => t | None => [] end.

Definition final_of {A} (r : option (A * world * list event)) : option world :=
  match r with Some (_, w, _) => Some w | None => None end.

(** Feeding [ps] to a task whose stack held [stack]: one turn per outcome. *)
Definition run (stack : list Z) (ps : list poll) :
    option (unit * world * list event) :=
  fake_modem_task (length ps) (boot stack ps).

(** ** The assembler and the responder in the words of the specification *)

(** The Response Table: exact, byte-for-byte lookup with one fallback. *)
Definition respond (cmd : list Z) : list Z :=
  if decide (cmd = CMD_AT) then RESP_OK
  else if decide (cmd = CMD_AT_CSQ) then RESP_CSQ
  else RESP_ERROR.

(** [feed]: the in-progress line after one byte, and the Command Line that
    byte completes, if any. *)
Definition feed (pending : list Z) (b : Z) : list Z * option (list Z) :=
  if is_terminator b then
    match pending with
    | [] => ([], None)
    | _ :: _ => ([], Some pending)
    end
  else if Z.of_nat (length pending) + 1 >=? LINE_BUF_SIZE - 1 then ([], None)
  else (pending ++ [b], None).

(** What one turn of the loop emits when it is given byte [b] with
    [pending] in the buffer. *)
Definition turn_trace (pending : list Z) (b : Z) : list event :=
  let n := Z.of_nat (length pending) in
  if is_terminator b then
    match pending with
    | [] => []
    | _ :: _ =>
        [Store n NUL; Dispatch pending;
         Printf (MsgReceived (c_string pending));
         UartWrite FAKE_MODEM_UART_NUM (respond (c_string pending))]
    end
  else
    Store n b ::
      (if n + 1 >=? LINE_BUF_SIZE - 1 then [Printf MsgTooLong] else []).

(** The in-progress line and the trace after a sequence of poll outcomes. *)
Fixpoint feed_all (pending : list Z) (ps : list poll) : list Z * list event :=
  match ps with
  | [] => (pending, [])
  | RxByte b :: ps' =>
      let r := feed_all (fst (feed pending b)) ps' in
      (fst r, turn_trace pending b ++ snd r)
  | _ :: ps' => feed_all pending ps'
  end.

(** The buffer of [w] holds exactly [pending] as its in-progress line. *)
Definition holds (w : world) (pending : list Z) : Prop :=
  length (line_buf w) = 128%nat /\
  line_pos w = Z.of_nat (length pending) /\
  take (length pending) (line_buf w) = pending /\
  (length pending < 127)%nat.

(** The bytes of a poll sequence, timeouts and errors left out. *)
Definition bytes_of (ps : list poll) : list Z :=
  omap (fun p => match p with RxByte b => Some b | _ => None end) ps.

(** The stores that put the bytes [s] into the buffer from cell [n] on. *)
Fixpoint store_run (n : nat) (s : list Z) : list event :=
  match s with
  | [] => []
  | b :: s' => Store (Z.of_nat n) b :: store_run (S n) s'
  end.

(** The in-progress line after the bytes [bs], by [feed] alone. *)
Definition in_progress (bs : list Z) : list Z :=
  foldl (fun pending b => fst (feed pending b)) [] bs.

(** ** main.c: the driver side of the loopback *)

Definition MODEM_UART_NUM : Z := 1.
Definition MODEM_TX_PIN : Z := 17.
Definition MODEM_RX_PIN : Z := 18.
Definition MODEM_RTS_PIN : Z := 16.
Definition MODEM_CTS_PIN : Z := 15.
Definition MODEM_BAUD : Z := 115200.
Definition MODEM_RX_BUF : Z := 256.

Definition FAKE_MODEM_TX_PIN : Z := 10.
Definition FAKE_MODEM_RX_PIN : Z := 9.
Definition FAKE_MODEM_RTS_PIN : Z := 12.
Definition FAKE_MODEM_CTS_PIN : Z := 11.
Definition FAKE_MODEM_BAUD : Z := 115200.
Definition FAKE_MODEM_RX_BUF : Z := 256.

(** [sizeof(rx_buf)] in [send_at_command]. *)
Definition RX_BUF_SIZE : Z := 128.

(** The fields of the driver's [uart_config_t] that the code sets. *)
Inductive uart_word_length_t : Type :=
  UART_DATA_5_BITS | UART_DATA_6_BITS | UART_DATA_7_BITS | UART_DATA_8_BITS.
Inductive uart_parity_t : Type :=
  UART_PARITY_DISABLE | UART_PARITY_EVEN | UART_PARITY_ODD.
Inductive uart_stop_bits_t : Type :=
  UART_STOP_BITS_1 | UART_STOP_BITS_1_5 | UART_STOP_BITS_2.
Inductive uart_hw_flowcontrol_t : Type :=
  | UART_HW_FLOWCTRL_DISABLE | UART_HW_FLOWCTRL_RTS
  | UART_HW_FLOWCTRL_CTS | UART_HW_FLOWCTRL_CTS_RTS.
Inductive uart_sclk_t : Type := UART_SCLK_DEFAULT.

Record uart_config_t : Type := UartConfig {
  baud_rate : Z;
  data_bits : uart_word_length_t;
  parity : uart_parity_t;
  stop_bits : uart_stop_bits_t;
  flow_ctrl : uart_hw_flowcontrol_t;
  rx_flow_ctrl_thresh : Z;
  source_clk : uart_sclk_t
}.

(** The console lines of main.c and of [fake_modem_start]. *)
Inductive main_message : Type :=
  | MainStarting                          (* "UART loopback test starting" *)
  | MainConfigured (tx rx rts cts : Z)    (* "UART1 configured on TX=.." *)
  | ModemStarting (port : Z)              (* "starting fake modem task on UART%d" *)
  | MainSendingCommands                   (* "sending AT commands..." *)
  | MainSending (shown : list Z)          (* "sending: " with the %.*s text *)
  | MainResponse (len : Z) (text : list Z) (* "response (%d bytes): %s" *)
  | MainNoResponse.                       (* "no response received" *)

(** What the whole program does, in order. *)
Inductive sys_event : Type :=
  | EvMain (m : main_message)
  | EvUartParamConfig (port : Z) (cfg : uart_config_t)
  | EvUartSetPin (port tx rx rts cts : Z)
  | EvUartDriverInstall (port rx_size tx_size queue_size : Z)
  | EvTaskCreate (stack_size priority : Z)
  | EvDelay (ms : Z)
  | EvTx (port : Z) (bytes : list Z)      (* [uart_write_bytes] of main.c *)
  | EvRxStore (idx : Z) (v : Z)           (* [rx_buf[idx] = v] *)
  | EvModem (e : event).                  (* a step of the fake modem task *)

#[global] Instance uart_word_length_eq_dec : EqDecision uart_word_length_t.
Proof. solve_decision. Defined.
#[global] Instance uart_parity_eq_dec : EqDecision uart_parity_t.
Proof. solve_decision. Defined.
#[global] Instance uart_stop_bits_eq_dec : EqDecision uart_stop_bits_t.
Proof. solve_decision. Defined.
#[global] Instance uart_hw_flowcontrol_eq_dec : EqDecision uart_hw_flowcontrol_t.
Proof. solve_decision. Defined.
#[global] Instance uart_sclk_eq_dec : EqDecision uart_sclk_t.
Proof. solve_decision. Defined.
#[global] Instance uart_config_eq_dec : EqDecision uart_config_t.
Proof. solve_decision. Defined.
#[global] Instance main_message_eq_dec : EqDecision main_message.
Proof. solve_decision. Defined.
#[global] Instance sys_event_eq_dec : EqDecision sys_event.
Proof. solve_decision. Defined.

(** The program on the loopback wiring that main.c describes: UART1 TX
    goes to UART2 RX, the inbound stream of the fake modem task, and UART2
    TX comes back to UART1 RX.  [rx_buf] stands for the stack cells that
    [send_at_command] uses for its array; their contents are arbitrary when
    the function is entered. *)
Record system : Type := System {
  modem : world;
  modem_running : bool;
  uart1_rx : list Z;
  rx_buf : list Z
}.

Definition Sys (A : Type) : Type := system -> option (A * system * list sys_event).

Definition sret {A} (a : A) : Sys A := fun s => Some (a, s, []).

Definition sbind {A B} (c : Sys A) (k : A -> Sys B) : Sys B :=
  fun s =>
    match c s with
    | None => None
    | Some (a, s1, t1) =>
        match k a s1 with
        | None => None
        | Some (b, s2, t2) => Some (b, s2, t1 ++ t2)
        end
    end.

Declare Scope sys_scope.
Delimit Scope sys_scope with sys.
Notation "x <- c ;; k" := (sbind c (fun x => k))
  (at level 100, c at next level, right associativity) : sys_scope.
Notation "c ;; k" := (sbind c (fun _ => k))
  (at level 100, right associativity) : sys_scope.

Definition semit (e : sys_event) : Sys unit := fun s => Some (tt, s, [e]).
Definition slift {A} (o : option A) : Sys A :=
  fun s => match o with Some a => Some (a, s, []) | None => None end.
Definition get_rx_buf : Sys (list Z) := fun s => Some (rx_buf s, s, []).

(** The bytes a trace of the fake modem task wrote on [port]. *)
Definition tx_on (port : Z) (t : list event) : list Z :=
  concat (map (fun e => match e with
                        | UartWrite p bytes => if p =? port then bytes else []
                        | _ => []
                        end) t).

(** The other task gets the processor: when the fake modem task has been
    created it runs until it has taken everything off its inbound stream,
    and what it wrote on UART2 arrives on UART1 RX. *)
Definition yield : Sys unit :=
  fun s =>
    if modem_running s then
      match task_loop (length (uart_rx (modem s))) (modem s) with
      | None => None
      | Some (_, m', t) =>
          Some (tt, System m' true
                           (uart1_rx s ++ tx_on FAKE_MODEM_UART_NUM t)
                           (rx_buf s),
                map EvModem t)
      end
    else Some (tt, s, []).

Definition vTaskDelay (ms : Z) : Sys unit :=
  (semit (EvDelay ms) ;; yield)%sys.

(** [uart_write_bytes] as main.c calls it: what is written on UART1 is
    queued on the inbound stream of the fake modem. *)
Definition main_uart_write_bytes (port : Z) (src : list Z) (size : Z) : Sys unit :=
  fun s =>
    if (0 <=? size) && (size <=? Z.of_nat (length src)) then
      let bytes := take (Z.to_nat size) src in
      let m := modem s in
      let m' :=
        if port =? MODEM_UART_NUM
        then World (line_buf m) (line_pos m) (byte m)
                   (uart_rx m ++ map RxByte bytes)
        else m in
      Some (tt, System m' (modem_running s) (uart1_rx s) (rx_buf s),
            [EvTx port bytes])
    else None.

(** [uart_read_bytes(MODEM_UART_NUM, rx_buf, size, timeout)]: waits, then
    moves up to [size] bytes that arrived on UART1 RX to the front of
    [rx_buf] and returns their number. *)
Definition main_uart_read_bytes (size : Z) : Sys Z :=
  (yield ;;
   fun s =>
     if (0 <=? size) && (size <=? Z.of_nat (length (rx_buf s))) then
       let data := take (Z.to_nat size) (uart1_rx s) in
       Some (Z.of_nat (length data),
             System (modem s) (modem_running s)
                    (drop (Z.to_nat size) (uart1_rx s))
                    (data ++ drop (length data) (rx_buf s)),
             [])
     else None)%sys.

(** [rx_buf[i] = v]. *)
Definition store_rx_buf (i v : Z) : Sys unit :=
  fun s =>
    if (0 <=? i) && (i <? RX_BUF_SIZE) && (i <? Z.of_nat (length (rx_buf s)))
    then Some (tt, System (modem s) (modem_running s) (uart1_rx s)
                          (<[Z.to_nat i := v]> (rx_buf s)),
               [EvRxStore i v])
    else None.

(** [size_t] and [int] on the ESP32-S3 are 32 bits wide. *)
Definition size_sub (a b : Z) : Z := (a - b) mod 2 ^ 32.
Definition int_of_size (x : Z) : Z := if x <? 2 ^ 31 then x else x - 2 ^ 32.

(** The text of a [%s] argument read with a precision of [p] bytes. *)
Fixpoint read_upto (p : nat) (mem : list Z) : option (list Z) :=
  match p with
  | O => Some []
  | S p' =>
      match mem with
      | [] => None
      | c :: mem' =>
          if c =? NUL then Some [] else cons c <$> read_upto p' mem'
      end
  end.

(** [printf("%.*s", prec, mem)]: a negative precision counts as none. *)
Definition printf_prec_s (prec : Z) (mem : list Z) : option (list Z) :=
  if prec <? 0
  then (fun n => take (Z.to_nat n) mem) <$> strlen mem
  else read_upto (Z.to_nat prec) mem.

Definition send_at_command (cmd : list Z) : Sys unit :=
  (n <- slift (strlen cmd) ;;
   shown <- slift (printf_prec_s (int_of_size (size_sub n 2)) cmd) ;;
   semit (EvMain (MainSending shown)) ;;
   n' <- slift (strlen cmd) ;;
   main_uart_write_bytes MODEM_UART_NUM cmd n' ;;
   vTaskDelay 200 ;;
   len <- main_uart_read_bytes (RX_BUF_SIZE - 1) ;;
   if len >? 0 then
     store_rx_buf len NUL ;;
     buf <- get_rx_buf ;;
     k <- slift (strlen buf) ;;
     semit (EvMain (MainResponse len (take (Z.to_nat k) buf)))
   else semit (EvMain MainNoResponse))%sys.

(** The [uart_cfg] of [fake_modem_start] and the one of [app_main]. *)
Definition fake_modem_uart_cfg : uart_config_t :=
  UartConfig FAKE_MODEM_BAUD UART_DATA_8_BITS UART_PARITY_DISABLE
             UART_STOP_BITS_1 UART_HW_FLOWCTRL_CTS_RTS 122 UART_SCLK_DEFAULT.

Definition main_uart_cfg : uart_config_t :=
  UartConfig MODEM_BAUD UART_DATA_8_BITS UART_PARITY_DISABLE
             UART_STOP_BITS_1 UART_HW_FLOWCTRL_CTS_RTS 122 UART_SCLK_DEFAULT.

(** [xTaskCreate(fake_modem_task, ...)]: the task exists from here on; it
    has the higher priority, so it starts at once, sets its [line_pos] and
    waits for its first byte. *)
Definition xTaskCreate_fake_modem_task (stack_size priority : Z) : Sys unit :=
  fun s =>
    match set_line_pos 0 (modem s) with
    | None => None
    | Some (_, m', t) =>
        Some (tt, System m' true (uart1_rx s) (rx_buf s),
              EvTaskCreate stack_size priority :: map EvModem t)
    end.

Definition fake_modem_start : Sys unit :=
  (semit (EvUartParamConfig FAKE_MODEM_UART_NUM fake_modem_uart_cfg) ;;
   semit (EvUartSetPin FAKE_MODEM_UART_NUM FAKE_MODEM_TX_PIN FAKE_MODEM_RX_PIN
                       FAKE_MODEM_RTS_PIN FAKE_MODEM_CTS_PIN) ;;
   semit (EvUartDriverInstall FAKE_MODEM_UART_NUM FAKE_MODEM_RX_BUF 0 0) ;;
   semit (EvMain (ModemStarting FAKE_MODEM_UART_NUM)) ;;
   xTaskCreate_fake_modem_task 4096 5)%sys.

(** One turn of the [while (1)] loop of [app_main]. *)
Definition app_main_cycle : Sys unit :=
  (send_at_command (c_literal (char_codes "AT" ++ [CR; LF])) ;;
   vTaskDelay 2000 ;;
   send_at_command (c_literal (char_codes "AT+CSQ" ++ [CR; LF])) ;;
   vTaskDelay 2000 ;;
   send_at_command (c_literal (char_codes "AT+UNKNOWN" ++ [CR; LF])) ;;
   vTaskDelay 2000)%sys.

Fixpoint app_main_loop (cycles : nat) : Sys unit :=
  match cycles with
  | O => sret tt
  | S k => (app_main_cycle ;; app_main_loop k)%sys
  end.

(** [app_main], cut after [cycles] turns of its endless loop. *)
Definition app_main (cycles : nat) : Sys unit :=
  (semit (EvMain MainStarting) ;;
   semit (EvUartParamConfig MODEM_UART_NUM main_uart_cfg) ;;
   semit (EvUartSetPin MODEM_UART_NUM MODEM_TX_PIN MODEM_RX_PIN
                       MODEM_RTS_PIN MODEM_CTS_PIN) ;;
   semit (EvUartDriverInstall MODEM_UART_NUM MODEM_RX_BUF 0 0) ;;
   semit (EvMain (MainConfigured MODEM_TX_PIN MODEM_RX_PIN
                                 MODEM_RTS_PIN MODEM_CTS_PIN)) ;;
   fake_modem_start ;;
   vTaskDelay 100 ;;
   semit (EvMain MainSendingCommands) ;;
   app_main_loop cycles)%sys.

(** The program at reset: no task yet, nothing on the wires, and whatever
    the two stacks held. *)
Definition power_on (modem_stack main_stack : list Z) : system :=
  System (World modem_stack 0 0 []) false [] main_stack.

(** ** Reading a trace of the program *)

Definition strace_of {A} (r : option (A * system * list sys_event)) : list sys_event :=
  match r with Some (_, _, t) => t | None => [] end.

Definition sfinal_of {A} (r : option (A * system * list sys_event)) : option system :=
  match r with Some (_, s, _) => Some s | None => None end.

(** The responses main.c reported: byte count and text. *)
Definition reported (t : list sys_event) : list (Z * list Z) :=
  omap (fun e => match e with
                 | EvMain (MainResponse len text) => Some (len, text)
                 | _ => None
                 end) t.

(** How many times main.c reported that nothing came back. *)
Definition silences (t : list sys_event) : nat :=
  length (filter (fun e => e = EvMain MainNoResponse) t).

(** What main.c wrote on its UART, one entry per call. *)
Definition main_writes (t : list sys_event) : list (Z * list Z) :=
  omap (fun e => match e with EvTx p bytes => Some (p, bytes) | _ => None end) t.

(** The command texts main.c logged before sending. *)
Definition logged_commands (t : list sys_event) : list (list Z) :=
  omap (fun e => match e with EvMain (MainSending l) => Some l | _ => None end) t.

(** The indices of the stores into [rx_buf]. *)
Definition rx_store_indices (t : list sys_event) : list Z :=
  omap (fun e => match e with EvRxStore i _ => Some i | _ => None end) t.

(** The steps of the fake modem task inside a trace of the program. *)
Definition modem_events (t : list sys_event) : list event :=
  omap (fun e => match e with EvModem e' => Some e' | _ => None end) t.

(** What [send_at_command] logs for a command of these bytes: the
    precision is [(int)(strlen(cmd) - 2)]. *)
Definition shown_command (bytes : list Z) : list Z :=
  if int_of_size (size_sub (Z.of_nat (length bytes)) 2) <? 0 then bytes
  else take (Z.to_nat (int_of_size (size_sub (Z.of_nat (length bytes)) 2))) bytes.

(** What [send_at_command] does once [arrived] is what lies on UART1 RX:
    the cells of [rx_buf] afterwards, and its report. *)
Definition rx_buf_after (arrived buf : list Z) : list Z :=
  match take 127 arrived with
  | [] => buf
  | data => <[length data := NUL]> (data ++ drop (length data) buf)
  end.

Definition report_of (arrived : list Z) : list sys_event :=
  match take 127 arrived with
  | [] => [EvMain MainNoResponse]
  | data => [EvRxStore (Z.of_nat (length data)) NUL;
             EvMain (MainResponse (Z.of_nat (length data)) (c_string data))]
  end.

(** The program is between two commands: the task runs, [line_buf] holds
    [pending], and [rx_buf] has its 128 cells. *)
Definition ready (s : system) (pending : list Z) : Prop :=
  modem_running s = true /\ holds (modem s) pending /\
  length (rx_buf s) = 128%nat.

(** ** More ways to read the fake modem's input and trace *)

(** The [uart_write_bytes] calls of a trace: port and bytes. *)
Definition uart_writes (t : list event) : list (Z * list Z) :=
  omap (fun e => match e with UartWrite p bytes => Some (p, bytes) | _ => None end) t.

(** The three scripted responses. *)
Definition canned : list (list Z) := [RESP_OK; RESP_CSQ; RESP_ERROR].

(** How many terminator bytes, and how many body bytes, a sequence has. *)
Definition terminators (bs : list Z) : nat :=
  length (filter (fun b => is_terminator b = true) bs).
Definition body_bytes (bs : list Z) : nat :=
  length (filter (fun b => is_terminator b = false) bs).

(** Two bytes that frame alike: the same byte, or two terminators. *)
Definition same_framing (b1 b2 : Z) : Prop :=
  b1 = b2 \/ (is_terminator b1 = true /\ is_terminator b2 = true).

(** Lines on the wire: each body followed by its run of terminators. *)
Definition on_wire (lines : list (list Z * list Z)) : list Z :=
  concat (map (fun l => fst l ++ snd l) lines).

(** A body the assembler takes whole, ended by at least one terminator. *)
Definition well_framed (l : list Z * list Z) : Prop :=
  fst l <> [] /\ no_terminator (fst l) /\ (length (fst l) < 127)%nat /\
  snd l <> [] /\ Forall (fun b => is_terminator b = true) (snd l).

(** Between two commands, with nothing left on either wire. *)
Definition clean (s : system) : Prop :=
  ready s [] /\ uart_rx (modem s) = [] /\ uart1_rx s = [].

(** What one turn of [app_main]'s loop sends and what it is answered. *)
Definition cycle_commands : list (list Z) :=
  [char_codes "AT"; char_codes "AT+CSQ"; char_codes "AT+UNKNOWN"].
Definition cycle_reports : list (Z * list Z) :=
  [(6, RESP_OK); (19, RESP_CSQ); (9, RESP_ERROR)].

(** The steps of [app_main] and [fake_modem_start] before the first
    delay, in the order of the calls. *)
Definition setup_steps : list sys_event :=
  [EvMain MainStarting;
   EvUartParamConfig MODEM_UART_NUM main_uart_cfg;
   EvUartSetPin MODEM_UART_NUM MODEM_TX_PIN MODEM_RX_PIN MODEM_RTS_PIN MODEM_CTS_PIN;
   EvUartDriverInstall MODEM_UART_NUM MODEM_RX_BUF 0 0;
   EvMain (MainConfigured MODEM_TX_PIN MODEM_RX_PIN MODEM_RTS_PIN MODEM_CTS_PIN);
   EvUartParamConfig FAKE_MODEM_UART_NUM fake_modem_uart_cfg;
   EvUartSetPin FAKE_MODEM_UART_NUM FAKE_MODEM_TX_PIN FAKE_MODEM_RX_PIN
                FAKE_MODEM_RTS_PIN FAKE_MODEM_CTS_PIN;
   EvUartDriverInstall FAKE_MODEM_UART_NUM FAKE_MODEM_RX_BUF 0 0;
   EvMain (ModemStarting FAKE_MODEM_UART_NUM);
   EvTaskCreate 4096 5].

(** ** The configuration headers *)

(** What the preprocessor makes of a header: its definitions, or the
    message of the first [#error] it meets. *)
Inductive cpp (A : Type) : Type :=
  | Included (a : A)
  | CppError (msg : string).
Arguments Included {A} a.
Arguments CppError {A} msg.

(** A value in an [#if]: zero is false, anything else true. *)
Definition cpp_true (v : Z) : bool := negb (v =? 0).

(** board_profile.h: the three [#if defined(..) && defined(..)] checks, then
    the [#if / #elif / #else] that includes one board header. *)
Inductive board_header : Type :=
  | board_xiao_esp32s3_h | board_feather_esp32s3_h | board_metro_esp32s3_h.

Definition select_board (xiao feather metro : bool) : cpp board_header :=
  if xiao && feather then CppError "Select only one board profile."
  else if xiao && metro then CppError "Select only one board profile."
  else if feather && metro then CppError "Select only one board profile."
  else if xiao then Included board_xiao_esp32s3_h
  else if feather then Included board_feather_esp32s3_h
  else if metro then Included board_metro_esp32s3_h
  else CppError "No board profile selected in board_profile.h".

(** board_profile.h as it is: it defines [BOARD_FEATHER_ESP32S3] itself;
    the other two macros can only come from the build flags. *)
Definition board_profile (xiao metro : bool) : cpp board_header :=
  select_board xiao true metro.

(** The macros of a board header that app_config.h reads. *)
Record board_caps : Type := BoardCaps {
  HAS_PSRAM : Z;
  MAX_PSRAM_MB : Z;
  HAS_CAMERA : Z;
  PIN_I2S_BCLK : Z;
  PIN_I2S_WS : Z
}.

(** board_feather_esp32s3.h and the XIAO header. *)
Definition feather_caps : board_caps := BoardCaps 1 2 0 (-1) (-1).
Definition xiao_caps : board_caps := BoardCaps 1 8 0 (-1) (-1).

(** The feature toggles that the checks of app_config.h read. *)
Record features : Type := Features {
  FEATURE_CAMERA : Z;
  FEATURE_AUDIO : Z
}.

(** The toggles as app_config.h sets them. *)
Definition shipped_features : features := Features 0 0.

Record knobs : Type := Knobs {
  RX_RING_BYTES : Z;
  TX_RING_BYTES : Z;
  HTTP_RX_MAX : Z;
  JSON_DOC_BYTES : Z
}.

Definition MODEM_LINE_MAX : Z := 512.

(** The memory knobs: [#if HAS_PSRAM && (MAX_PSRAM_MB >= 8)]. *)
Definition memory_knobs (b : board_caps) : knobs :=
  if cpp_true (HAS_PSRAM b) && (MAX_PSRAM_MB b >=? 8)
  then Knobs 8192 4096 16384 16384
  else Knobs 4096 2048 8192 6144.

(** app_config.h on a board header and a choice of toggles: the knobs, or
    the [#error] of its compile-time checks. *)
Definition app_config (b : board_caps) (f : features) : cpp knobs :=
  if cpp_true (FEATURE_CAMERA f) && negb (cpp_true (HAS_CAMERA b))
  then CppError "FEATURE_CAMERA is enabled but HAS_CAMERA is false for this board."
  else if cpp_true (FEATURE_AUDIO f)
          && ((PIN_I2S_BCLK b <? 0) || (PIN_I2S_WS b <? 0))
  then CppError "FEATURE_AUDIO is enabled but I2S pins are not mapped in this board profile."
  else Included (memory_knobs b).

(** Run the monad's plumbing on a known world. *)
Ltac step_world :=
  cbv beta; cbn [uart_rx line_buf line_pos byte Z.leb Z.compare app fst snd].

(** * Facts about the string functions *)

Example run_AT :
  tx_bytes (trace_of (run (replicate 128 7)
                          (map RxByte (char_codes "AT" ++ [CR; LF])))) = RESP_OK.
Proof. vm_compute. reflexivity. Qed.

Lemma c_string_app_nul (s r : list Z) : c_string (s ++ NUL :: r) = c_string s.
Proof.
  induction s as [|x s IH]; simpl; [reflexivity|].
  destruct (x =? NUL); [reflexivity | now rewrite IH].
Qed.

Lemma c_string_no_nul (s : list Z) : Forall (fun c => c <> NUL) s -> c_string s = s.
Proof.
  induction 1 as [|x s Hx _ IH]; simpl; [reflexivity|].
  destruct (Z.eqb_spec x NUL); [contradiction | now rewrite IH].
Qed.

Lemma c_string_nonzero (s : list Z) : Forall (fun c => c <> NUL) (c_string s).
Proof.
  induction s as [|x s IH]; simpl; [constructor|].
  destruct (Z.eqb_spec x NUL); [constructor | now constructor].
Qed.

Lemma c_string_length (s : list Z) : (length (c_string s) <= length s)%nat.
Proof.
  induction s as [|x s IH]; simpl; [lia|].
  destruct (x =? NUL); simpl; lia.
Qed.

Lemma strlen_app_nul (s r : list Z) :
  strlen (s ++ NUL :: r) = Some (Z.of_nat (length (c_string s))).
Proof.
  induction s as [|x s IH]; simpl; [reflexivity|].
  destruct (x =? NUL); [reflexivity|].
  rewrite IH. simpl. f_equal. lia.
Qed.

Lemma take_c_string (s r : list Z) :
  take (length (c_string s)) (s ++ NUL :: r) = c_string s.
Proof.
  induction s as [|x s IH]; simpl; [reflexivity|].
  destruct (x =? NUL); simpl; [reflexivity | now rewrite IH].
Qed.

(** [strcmp] against a literal never faults on a NUL-terminated array, and
    returns 0 exactly when the C string in the array is the literal. *)
Lemma strcmp_literal (lit : list Z) :
  Forall (fun c => c <> NUL) lit ->
  forall s r, exists d,
    strcmp (s ++ NUL :: r) (c_literal lit) = Some d /\
    (d = 0 <-> c_string s = lit).
Proof.
  unfold c_literal.
  induction 1 as [|y lit Hy _ IH]; intros s r.
  - destruct s as [|x s]; cbn [strcmp app c_string].
    + exists 0. split; [reflexivity | tauto].
    + destruct (Z.eqb_spec x NUL) as [->|Hx].
      * exists 0. split; [reflexivity | tauto].
      * exists (x - NUL). split; [reflexivity|].
        unfold NUL in *. split; [lia | discriminate].
  - destruct s as [|x s]; cbn [strcmp app c_string].
    + destruct (Z.eqb_spec NUL y) as [E|_]; [congruence|].
      exists (NUL - y). split; [reflexivity|].
      unfold NUL in *. split; [lia | discriminate].
    + destruct (Z.eqb_spec x y) as [->|Hxy].
      * destruct (Z.eqb_spec y NUL) as [E|_]; [contradiction|].
        destruct (IH s r) as (d & Hd & Hiff). exists d. split; [exact Hd|].
        rewrite Hiff. split; [congruence | now inversion 1].
      * exists (x - y). split; [reflexivity|]. split; [lia|].
        destruct (x =? NUL); [discriminate | congruence].
Qed.

Lemma char_codes_AT_nonzero : Forall (fun c => c <> NUL) CMD_AT.
Proof. repeat constructor; discriminate. Qed.

Lemma char_codes_AT_CSQ_nonzero : Forall (fun c => c <> NUL) CMD_AT_CSQ.
Proof. repeat constructor; discriminate. Qed.

(** * The responder *)

Lemma send_response_OK w :
  send_response (c_literal RESP_OK) w
  = Some (tt, w, [UartWrite FAKE_MODEM_UART_NUM RESP_OK]).
Proof. reflexivity. Qed.

Lemma send_response_CSQ w :
  send_response (c_literal RESP_CSQ) w
  = Some (tt, w, [UartWrite FAKE_MODEM_UART_NUM RESP_CSQ]).
Proof. reflexivity. Qed.

Lemma send_response_ERROR w :
  send_response (c_literal RESP_ERROR) w
  = Some (tt, w, [UartWrite FAKE_MODEM_UART_NUM RESP_ERROR]).
Proof. reflexivity. Qed.

(** [process_line] on a NUL-terminated array: it logs the C string and
    writes the table's response for the C string, and nothing else. *)
Lemma process_line_spec (s r : list Z) (w : world) :
  process_line (s ++ NUL :: r) w
  = Some (tt, w, [Printf (MsgReceived (c_string s));
                  UartWrite FAKE_MODEM_UART_NUM (respond (c_string s))]).
Proof.
  unfold process_line, printf_received, bind, lift, emit.
  rewrite strlen_app_nul, Nat2Z.id, take_c_string.
  destruct (strcmp_literal _ char_codes_AT_nonzero s r) as (d & -> & Hd).
  destruct (strcmp_literal _ char_codes_AT_CSQ_nonzero s r) as (d' & Hd' & Hd'').
  unfold respond.
  destruct (Z.eqb_spec d 0) as [E|E].
  - rewrite send_response_OK. apply Hd in E.
    destruct (decide (c_string s = CMD_AT)); [reflexivity | contradiction].
  - destruct (decide (c_string s = CMD_AT)) as [E'|_]; [apply Hd in E'; contradiction|].
    rewrite Hd'. destruct (Z.eqb_spec d' 0) as [E2|E2].
    + rewrite send_response_CSQ. apply Hd'' in E2.
      destruct (decide (c_string s = CMD_AT_CSQ)); [reflexivity | contradiction].
    + rewrite send_response_ERROR.
      destruct (decide (c_string s = CMD_AT_CSQ)) as [E'|_];
        [apply Hd'' in E'; contradiction | reflexivity].
Qed.

(** * One turn of the loop *)

(** A turn that receives no byte changes nothing but the inbound stream. *)
Lemma loop_body_idle (w : world) (p : poll) (rest : list poll) :
  uart_rx w = p :: rest -> p = RxTimeout \/ p = RxError ->
  loop_body w
  = Some (tt, World (line_buf w) (line_pos w) (byte w) rest, []).
Proof.
  intros Hrx [-> | ->]; unfold loop_body, bind, uart_read_bytes;
    rewrite Hrx; reflexivity.
Qed.

Lemma loop_body_exhausted (w : world) :
  uart_rx w = [] -> loop_body w = Some (tt, w, []).
Proof.
  intros Hrx. unfold loop_body, bind, uart_read_bytes. rewrite Hrx. reflexivity.
Qed.

Lemma store_line_buf_ok (buf : list Z) (pos by0 : Z) (rx : list poll) (n : nat) (v : Z) :
  length buf = 128%nat -> (n < 128)%nat ->
  store_line_buf (Z.of_nat n) v (World buf pos by0 rx)
  = Some (tt, World (<[n := v]> buf) pos by0 rx, [Store (Z.of_nat n) v]).
Proof.
  intros Hlen Hn. unfold store_line_buf, LINE_BUF_SIZE. simpl.
  rewrite Hlen, Nat2Z.id.
  destruct (Z.leb_spec 0 (Z.of_nat n)); [|lia].
  destruct (Z.ltb_spec (Z.of_nat n) 128); [|lia].
  destruct (Z.ltb_spec (Z.of_nat n) (Z.of_nat 128)); [|lia].
  reflexivity.
Qed.

(** A turn that receives byte [b] does what [feed] and [turn_trace] say. *)
Lemma loop_body_byte (w : world) (pending : list Z) (b : Z) (rest : list poll) :
  holds w pending -> uart_rx w = RxByte b :: rest ->
  exists w',
    loop_body w = Some (tt, w', turn_trace pending b) /\
    holds w' (fst (feed pending b)) /\
    uart_rx w' = rest /\ byte w' = b.
Proof.
  destruct w as [buf pos by0 rx]. unfold holds. simpl.
  intros (Hlen & -> & Htake & Hlt) ->.
  set (n := length pending) in *.
  unfold loop_body, feed, turn_trace, is_terminator, bind, uart_read_bytes,
    get_byte, get_line_pos, get_line_buf, set_line_pos, emit, ret.
  step_world. fold n.
  destruct ((b =? CR) || (b =? LF)) eqn:Hterm; step_world.
  - destruct pending as [|x pending'] eqn:Hp.
    + subst n. simpl. eexists. split; [reflexivity|]. simpl. repeat split; auto; lia.
    + rewrite <- Hp in *.
      assert (Hn : (0 < n)%nat) by (subst n pending; simpl; lia).
      destruct (Z.gtb_spec (Z.of_nat n) 0) as [_|]; [|lia].
      rewrite store_line_buf_ok by lia. step_world.
      rewrite Nat2Z.id.
      rewrite take_insert_ge by lia. rewrite Htake.
      rewrite insert_take_drop by lia. rewrite Htake.
      rewrite process_line_spec. step_world.
      eexists. split; [reflexivity|]. simpl.
      repeat split; auto; try lia.
      rewrite length_app. simpl. rewrite length_drop. subst n.
      rewrite <- Htake at 1. rewrite length_take. lia.
  - rewrite store_line_buf_ok by lia. step_world.
    destruct (Z.geb_spec (Z.of_nat n + 1) (LINE_BUF_SIZE - 1)) as [Hov|Hok];
      step_world.
    + eexists. split; [reflexivity|]. simpl.
      repeat split; auto; try lia. now rewrite length_insert.
    + unfold LINE_BUF_SIZE in Hok.
      eexists. split; [reflexivity|]. simpl.
      rewrite length_insert, length_app. simpl.
      repeat split; auto; try lia.
      replace (length pending + 1)%nat with (S n) by (subst n; lia).
      rewrite (take_S_r _ n b) by (apply list_lookup_insert_eq; lia).
      rewrite take_insert_ge by lia. now rewrite Htake.
Qed.

(** * The loop follows [feed_all] *)

Lemma holds_idle (w : world) (pending : list Z) (rest : list poll) :
  holds w pending ->
  holds (World (line_buf w) (line_pos w) (byte w) rest) pending.
Proof. unfold holds. simpl. tauto. Qed.

(** [fuel] turns of the loop consume [fuel] poll outcomes, emit the trace
    [feed_all] gives for them and leave its in-progress line in the buffer.
    In particular no turn faults. *)
Lemma task_loop_refines (fuel : nat) :
  forall (w : world) (pending : list Z),
    holds w pending ->
    exists w',
      task_loop fuel w
      = Some (tt, w', snd (feed_all pending (take fuel (uart_rx w)))) /\
      holds w' (fst (feed_all pending (take fuel (uart_rx w)))) /\
      uart_rx w' = drop fuel (uart_rx w).
Proof.
  induction fuel as [|k IH]; intros w pending Hw.
  - exists w. rewrite take_0. simpl. auto.
  - cbn [task_loop]. unfold bind.
    destruct (uart_rx w) as [|p rest] eqn:Hrx.
    + rewrite (loop_body_exhausted w Hrx).
      destruct (IH w pending Hw) as (w' & -> & Hw' & Hrx').
      rewrite Hrx in *. rewrite take_nil in *. rewrite drop_nil in Hrx'.
      exists w'. simpl in *. auto.
    + destruct p as [b| |].
      * destruct (loop_body_byte w pending b rest Hw Hrx)
          as (w1 & -> & Hw1 & Hrx1 & _).
        destruct (IH w1 _ Hw1) as (w' & -> & Hw' & Hrx').
        rewrite Hrx1 in *. exists w'. simpl. auto.
      * rewrite (loop_body_idle w RxTimeout rest Hrx) by auto.
        destruct (IH _ pending (holds_idle w pending rest Hw))
          as (w' & -> & Hw' & Hrx').
        exists w'. simpl in *. auto.
      * rewrite (loop_body_idle w RxError rest Hrx) by auto.
        destruct (IH _ pending (holds_idle w pending rest Hw))
          as (w' & -> & Hw' & Hrx').
        exists w'. simpl in *. auto.
Qed.

(** The task from its start. *)
Lemma fake_modem_task_refines (fuel : nat) (stack : list Z) (ps : list poll) :
  length stack = 128%nat ->
  exists w',
    fake_modem_task fuel (boot stack ps)
    = Some (tt, w', snd (feed_all [] (take fuel ps))) /\
    holds w' (fst (feed_all [] (take fuel ps))) /\
    uart_rx w' = drop fuel ps.
Proof.
  intros Hlen. unfold fake_modem_task, bind, set_line_pos, boot. simpl.
  destruct (task_loop_refines fuel (World stack 0 0 ps) [])
    as (w' & -> & Hw' & Hrx'); [unfold holds; simpl; repeat split; auto; lia|].
  exists w'. simpl in *. auto.
Qed.

Lemma run_refines (stack : list Z) (ps : list poll) :
  length stack = 128%nat ->
  exists w',
    run stack ps = Some (tt, w', snd (feed_all [] ps)) /\
    holds w' (fst (feed_all [] ps)) /\ uart_rx w' = [].
Proof.
  intros Hlen. unfold run.
  destruct (fake_modem_task_refines (length ps) stack ps Hlen)
    as (w' & Hrun & Hw' & Hrx').
  rewrite firstn_all in *. rewrite drop_all in Hrx'. eauto.
Qed.

Lemma run_trace (stack : list Z) (ps : list poll) :
  length stack = 128%nat -> trace_of (run stack ps) = snd (feed_all [] ps).
Proof.
  intros Hlen. destruct (run_refines stack ps Hlen) as (w' & -> & _). reflexivity.
Qed.

(** More turns than poll outcomes add nothing. *)
Lemma fake_modem_task_enough_fuel (fuel : nat) (stack : list Z) (ps : list poll) :
  length stack = 128%nat -> (length ps <= fuel)%nat ->
  trace_of (fake_modem_task fuel (boot stack ps)) = snd (feed_all [] ps) /\
  is_Some (fake_modem_task fuel (boot stack ps)).
Proof.
  intros Hlen Hfuel.
  destruct (fake_modem_task_refines fuel stack ps Hlen) as (w' & -> & _).
  rewrite take_ge by lia. split; [reflexivity | eauto].
Qed.

(** * Facts about [feed_all] *)

Lemma feed_all_app (pending : list Z) (ps qs : list poll) :
  feed_all pending (ps ++ qs)
  = (fst (feed_all (fst (feed_all pending ps)) qs),
     snd (feed_all pending ps) ++ snd (feed_all (fst (feed_all pending ps)) qs)).
Proof.
  revert pending. induction ps as [|p ps IH]; intros pending.
  - simpl. now destruct (feed_all pending qs).
  - destruct p as [b| |]; cbn [feed_all app fst snd]; rewrite IH;
      cbn [fst snd]; [now rewrite app_assoc | reflexivity | reflexivity].
Qed.

(** Only the bytes matter: timeouts and errors leave no mark. *)
Lemma feed_all_bytes_of (pending : list Z) (ps : list poll) :
  feed_all pending ps = feed_all pending (map RxByte (bytes_of ps)).
Proof.
  revert pending. induction ps as [|p ps IH]; intros pending; [reflexivity|].
  destruct p as [b| |]; cbn [feed_all bytes_of omap map]; simpl; now rewrite IH.
Qed.

Lemma feed_length (pending : list Z) (b : Z) :
  (length pending < 127)%nat -> (length (fst (feed pending b)) < 127)%nat.
Proof.
  intros H. unfold feed, LINE_BUF_SIZE.
  destruct (is_terminator b); [destruct pending; simpl; lia|].
  destruct (Z.geb_spec (Z.of_nat (length pending) + 1) (128 - 1)); simpl; [lia|].
  rewrite length_app. simpl. lia.
Qed.

Lemma feed_all_body (s : list Z) :
  forall pending,
    no_terminator s -> (length pending + length s < 127)%nat ->
    feed_all pending (map RxByte s)
    = (pending ++ s, store_run (length pending) s).
Proof.
  induction s as [|b s IH]; intros pending Hs Hlen.
  - simpl. now rewrite app_nil_r.
  - inversion Hs as [|? ? Hb Hs']; subst. simpl in Hlen.
    cbn [map feed_all store_run]. unfold feed at 1 2, turn_trace.
    rewrite Hb. unfold LINE_BUF_SIZE.
    destruct (Z.geb_spec (Z.of_nat (length pending) + 1) (128 - 1)); [lia|].
    cbn [fst snd]. rewrite IH by (try rewrite length_app; simpl; auto; lia).
    rewrite length_app. simpl. rewrite <- app_assoc. simpl.
    replace (length pending + 1)%nat with (S (length pending)) by lia.
    reflexivity.
Qed.

(** A terminator after a non-empty in-progress line. *)
Lemma feed_all_terminator (pending : list Z) (t : Z) (ps : list poll) :
  pending <> [] -> is_terminator t = true ->
  feed_all pending (RxByte t :: ps)
  = (fst (feed_all [] ps),
     [Store (Z.of_nat (length pending)) NUL; Dispatch pending;
      Printf (MsgReceived (c_string pending));
      UartWrite FAKE_MODEM_UART_NUM (respond (c_string pending))]
     ++ snd (feed_all [] ps)).
Proof.
  intros Hne Ht. cbn [feed_all]. unfold feed, turn_trace. rewrite Ht.
  destruct pending; [contradiction | reflexivity].
Qed.

(** A terminator on an empty buffer. *)
Lemma feed_all_terminator_empty (t : Z) (ps : list poll) :
  is_terminator t = true -> feed_all [] (RxByte t :: ps) = feed_all [] ps.
Proof.
  intros Ht. cbn [feed_all]. unfold feed, turn_trace. rewrite Ht.
  simpl. now destruct (feed_all [] ps).
Qed.

(** One whole line, then anything. *)
Lemma feed_all_line (s : list Z) (t : Z) (ps : list poll) :
  s <> [] -> no_terminator s -> (length s < 127)%nat -> is_terminator t = true ->
  feed_all [] (map RxByte (s ++ [t]) ++ ps)
  = (fst (feed_all [] ps),
     store_run 0 s ++
     [Store (Z.of_nat (length s)) NUL; Dispatch s;
      Printf (MsgReceived (c_string s));
      UartWrite FAKE_MODEM_UART_NUM (respond (c_string s))]
     ++ snd (feed_all [] ps)).
Proof.
  intros Hne Hs Hlen Ht.
  rewrite map_app, <- app_assoc, feed_all_app.
  rewrite (feed_all_body s []) by (simpl; auto).
  cbn [fst snd app map length]. now rewrite feed_all_terminator.
Qed.

Lemma tx_bytes_app (t u : list event) : tx_bytes (t ++ u) = tx_bytes t ++ tx_bytes u.
Proof. unfold tx_bytes. now rewrite map_app, concat_app. Qed.

Lemma overflows_app (t u : list event) :
  overflows (t ++ u) = (overflows t + overflows u)%nat.
Proof. unfold overflows. now rewrite filter_app, length_app. Qed.

Lemma dispatched_app (t u : list event) :
  dispatched (t ++ u) = dispatched t ++ dispatched u.
Proof. apply omap_app. Qed.

Lemma responses_app (t u : list event) :
  responses (t ++ u) = responses t ++ responses u.
Proof. apply omap_app. Qed.

Lemma received_app (t u : list event) :
  received (t ++ u) = received t ++ received u.
Proof. apply omap_app. Qed.

Lemma store_indices_app (t u : list event) :
  store_indices (t ++ u) = store_indices t ++ store_indices u.
Proof. apply omap_app. Qed.

(** What the readers see in a run of stores. *)
Lemma store_run_silent (s : list Z) (n : nat) :
  dispatched (store_run n s) = [] /\ responses (store_run n s) = [] /\
  received (store_run n s) = [] /\ tx_bytes (store_run n s) = [] /\
  overflows (store_run n s) = 0%nat.
Proof.
  revert n. induction s as [|b s IH]; intros n; [repeat split|].
  destruct (IH (S n)) as (H1 & H2 & H3 & H4 & H5).
  change (store_run n (b :: s))
    with ([Store (Z.of_nat n) b] ++ store_run (S n) s).
  rewrite dispatched_app, responses_app, received_app, tx_bytes_app,
    overflows_app, H1, H2, H3, H4, H5.
  repeat split.
Qed.

(** A run of body bytes of any length: nothing is dispatched and nothing is
    sent, the buffer is reset at every 127th byte. *)
Lemma feed_all_junk (s : list Z) :
  forall pending,
    no_terminator s -> (length pending < 127)%nat ->
    dispatched (snd (feed_all pending (map RxByte s))) = [] /\
    responses (snd (feed_all pending (map RxByte s))) = [] /\
    tx_bytes (snd (feed_all pending (map RxByte s))) = [] /\
    length (fst (feed_all pending (map RxByte s)))
    = ((length pending + length s) mod 127)%nat /\
    overflows (snd (feed_all pending (map RxByte s)))
    = ((length pending + length s) / 127)%nat.
Proof.
  induction s as [|b s IH]; intros pending Hs Hlen.
  - cbn [map feed_all fst snd length].
    rewrite Nat.add_0_r, Nat.mod_small, Nat.div_small by lia.
    repeat split.
  - inversion Hs as [|? ? Hb Hs']; subst.
    cbn [map feed_all fst snd length].
    rewrite dispatched_app, responses_app, tx_bytes_app, overflows_app.
    unfold feed at 1 2 3 4 5, turn_trace. rewrite Hb. unfold LINE_BUF_SIZE.
    destruct (Z.geb_spec (Z.of_nat (length pending) + 1) (128 - 1)) as [Hov|Hok];
      cbn [fst].
    + destruct (IH [] Hs') as (H1 & H2 & H3 & H4 & H5); [simpl; lia|].
      rewrite H1, H2, H3, H4, H5. simpl length.
      replace (length pending + S (length s))%nat
        with (length s + 1 * 127)%nat by lia.
      rewrite Nat.Div0.mod_add, Nat.div_add by lia.
      repeat split. simpl. lia.
    + destruct (IH (pending ++ [b]) Hs') as (H1 & H2 & H3 & H4 & H5);
        [rewrite length_app; simpl; lia|].
      rewrite H1, H2, H3, H4, H5, length_app. simpl length.
      replace (length pending + 1 + length s)%nat
        with (length pending + S (length s))%nat by lia.
      repeat split.
Qed.

(** Every call of [process_line] in a trace: what was accumulated is not
    empty, has no terminator in it and fits the buffer; what the function
    logged and answered follows from it through [c_string]. *)
Lemma feed_all_shape (ps : list poll) :
  forall pending,
    no_terminator pending -> (length pending < 127)%nat ->
    Forall (fun acc => acc <> [] /\ no_terminator acc /\ (length acc < 127)%nat)
           (dispatched (snd (feed_all pending ps))) /\
    received (snd (feed_all pending ps))
    = map c_string (dispatched (snd (feed_all pending ps))) /\
    responses (snd (feed_all pending ps))
    = map (fun acc => respond (c_string acc))
          (dispatched (snd (feed_all pending ps))) /\
    no_terminator (fst (feed_all pending ps)).
Proof.
  induction ps as [|p ps IH]; intros pending Hnt Hlen.
  - simpl. repeat split; auto.
  - destruct p as [b| |]; cbn [feed_all fst snd]; [|now apply IH..].
    rewrite dispatched_app, responses_app, received_app.
    unfold feed, turn_trace, LINE_BUF_SIZE.
    destruct (is_terminator b) eqn:Hb.
    + destruct (IH [] ltac:(constructor) ltac:(simpl; lia))
        as (H1 & H2 & H3 & H4).
      destruct pending as [|x pending]; cbn [fst].
      * simpl. auto.
      * rewrite H2, H3. repeat split; auto.
        simpl. constructor; [|exact H1]. repeat split; auto; discriminate.
    + destruct (Z.geb_spec (Z.of_nat (length pending) + 1) (128 - 1)); cbn [fst].
      * destruct (IH [] ltac:(constructor) ltac:(simpl; lia))
          as (H1 & H2 & H3 & H4).
        rewrite H2, H3. simpl. auto.
      * destruct (IH (pending ++ [b])) as (H1 & H2 & H3 & H4).
        { apply Forall_app. split; [exact Hnt | now constructor]. }
        { rewrite length_app. simpl. lia. }
        rewrite H2, H3. simpl. auto.
Qed.

(** Every store of a trace goes to a cell below 127. *)
Lemma feed_all_store_indices (ps : list poll) :
  forall pending,
    (length pending < 127)%nat ->
    Forall (fun i => 0 <= i < 127) (store_indices (snd (feed_all pending ps))).
Proof.
  induction ps as [|p ps IH]; intros pending Hlen; [constructor|].
  destruct p as [b| |]; cbn [feed_all fst snd]; [|now apply IH..].
  rewrite store_indices_app. apply Forall_app. split.
  - unfold turn_trace. destruct (is_terminator b).
    + destruct pending; [constructor|]. repeat constructor; lia.
    + destruct (_ >=? _); repeat constructor; lia.
  - apply IH, feed_length, Hlen.
Qed.

(** [feed_all] keeps the in-progress line that [feed] alone computes. *)
Lemma feed_all_in_progress (ps : list poll) (pending : list Z) :
  fst (feed_all pending ps)
  = foldl (fun pending b => fst (feed pending b)) pending (bytes_of ps).
Proof.
  revert pending. induction ps as [|p ps IH]; intros pending; [reflexivity|].
  destruct p as [b| |]; cbn [feed_all fst]; rewrite IH; reflexivity.
Qed.

Lemma in_progress_snoc (bs : list Z) (b : Z) :
  in_progress (bs ++ [b]) = fst (feed (in_progress bs) b).
Proof. unfold in_progress. now rewrite foldl_app. Qed.

(** The in-progress line is the tail end of the bytes received, without a
    terminator, shorter than 127. *)
Lemma in_progress_spec (bs : list Z) :
  in_progress bs `suffix_of` bs /\ no_terminator (in_progress bs) /\
  (length (in_progress bs) < 127)%nat.
Proof.
  induction bs as [|b bs (Hsuf & Hnt & Hlen)] using rev_ind.
  - repeat split; [apply suffix_nil | constructor | simpl; lia].
  - rewrite in_progress_snoc. split; [|split; [|now apply feed_length]].
    + unfold feed. destruct (is_terminator b).
      * destruct (in_progress bs); apply suffix_nil.
      * destruct (_ >=? _); [apply suffix_nil | now apply suffix_app].
    + unfold feed. destruct (is_terminator b) eqn:Hb.
      * destruct (in_progress bs); constructor.
      * destruct (_ >=? _); [constructor|].
        apply Forall_app. split; [exact Hnt | now constructor].
Qed.

Lemma respond_table :
  respond CMD_AT = RESP_OK /\ respond CMD_AT_CSQ = RESP_CSQ /\
  (forall cmd, cmd <> CMD_AT -> cmd <> CMD_AT_CSQ -> respond cmd = RESP_ERROR).
Proof.
  split; [reflexivity | split; [reflexivity|]].
  intros cmd H1 H2. unfold respond.
  rewrite decide_False by exact H1. now rewrite decide_False by exact H2.
Qed.

Lemma task_trace (fuel : nat) (stack : list Z) (ps : list poll) :
  length stack = 128%nat ->
  is_Some (fake_modem_task fuel (boot stack ps)) /\
  trace_of (fake_modem_task fuel (boot stack ps))
  = snd (feed_all [] (take fuel ps)).
Proof.
  intros Hlen.
  destruct (fake_modem_task_refines fuel stack ps Hlen) as (w' & -> & _).
  split; [eauto | reflexivity].
Qed.

(** What one whole line leaves in the trace of a fresh task. *)
Lemma line_shape (stack s : list Z) (t : Z) :
  length stack = 128%nat ->
  s <> [] -> no_terminator s -> (length s < 127)%nat ->
  is_terminator t = true ->
  dispatched (trace_of (run stack (map RxByte (s ++ [t])))) = [s] /\
  received (trace_of (run stack (map RxByte (s ++ [t])))) = [c_string s] /\
  responses (trace_of (run stack (map RxByte (s ++ [t]))))
  = [respond (c_string s)].
Proof.
  intros Hlen Hne Hs Hlt Ht. rewrite (run_trace _ _ Hlen).
  rewrite <- (app_nil_r (map RxByte (s ++ [t]))).
  rewrite (feed_all_line s t []) by assumption.
  cbn [fst snd feed_all].
  destruct (store_run_silent s 0) as (H1 & H2 & H3 & _).
  rewrite dispatched_app, received_app, responses_app, H1, H2, H3.
  repeat split.
Qed.

Lemma bytes_of_length (ps : list poll) : (length (bytes_of ps) <= length ps)%nat.
Proof.
  induction ps as [|p ps IH]; [reflexivity|].
  destruct p; cbn [bytes_of omap list_omap length] in *;
    fold (bytes_of ps); simpl; lia.
Qed.

Lemma c_string_empty_iff (acc : list Z) :
  acc <> [] -> (c_string acc = [] <-> head acc = Some NUL).
Proof.
  destruct acc as [|x acc]; [contradiction|]. intros _. simpl.
  destruct (Z.eqb_spec x NUL) as [->|Hx]; split; intros H;
    try reflexivity; try discriminate; congruence.
Qed.

(** The in-progress line after a run of body bytes: what is left once
    every full block of 127 bytes has been dropped. *)
Lemma feed_all_junk_pending (s : list Z) :
  forall pending,
    no_terminator s -> (length pending < 127)%nat ->
    fst (feed_all pending (map RxByte s))
    = drop (127 * ((length pending + length s) / 127)) (pending ++ s).
Proof.
  induction s as [|b s IH]; intros pending Hs Hlen.
  - cbn [map feed_all fst length]. rewrite Nat.add_0_r, Nat.div_small by lia.
    now rewrite app_nil_r.
  - inversion Hs as [|? ? Hb Hs']; subst.
    cbn [map feed_all fst]. unfold feed. rewrite Hb. unfold LINE_BUF_SIZE.
    destruct (Z.geb_spec (Z.of_nat (length pending) + 1) (128 - 1)) as [Hov|Hok];
      cbn [fst].
    + rewrite (IH [] Hs') by (simpl; lia). cbn [app length].
      replace (length pending + S (length s))%nat
        with (length s + 1 * 127)%nat by lia.
      rewrite Nat.div_add by lia.
      replace (127 * (length s / 127 + 1))%nat
        with (length (pending ++ [b]) + 127 * (length s / 127))%nat
        by (rewrite length_app; simpl; lia).
      rewrite (cons_middle b pending s), app_assoc.
      now rewrite drop_app_add.
    + rewrite (IH (pending ++ [b]) Hs') by (rewrite length_app; simpl; lia).
      rewrite length_app, <- app_assoc. cbn [length app].
      replace (length pending + 1 + length s)%nat
        with (length pending + S (length s))%nat by lia.
      reflexivity.
Qed.

Lemma feed_all_line_from (pending s : list Z) (t : Z) (ps : list poll) :
  pending ++ s <> [] -> no_terminator s ->
  (length pending + length s < 127)%nat -> is_terminator t = true ->
  feed_all pending (map RxByte (s ++ [t]) ++ ps)
  = (fst (feed_all [] ps),
     store_run (length pending) s ++
     [Store (Z.of_nat (length (pending ++ s))) NUL; Dispatch (pending ++ s);
      Printf (MsgReceived (c_string (pending ++ s)));
      UartWrite FAKE_MODEM_UART_NUM (respond (c_string (pending ++ s)))]
     ++ snd (feed_all [] ps)).
Proof.
  intros Hne Hs Hlen Ht.
  rewrite map_app, <- app_assoc, feed_all_app.
  rewrite (feed_all_body s pending) by assumption.
  cbn [fst snd app map]. now rewrite feed_all_terminator.
Qed.

Lemma respond_nonempty (cmd : list Z) : respond cmd <> [].
Proof.
  unfold respond. destruct (decide (cmd = CMD_AT)); [discriminate|].
  destruct (decide (cmd = CMD_AT_CSQ)); discriminate.
Qed.

(** * The claims *)

(** ** C1 *)

(** C1, as stated, fails: the line [A T NUL X] is dispatched, its bytes are
    not exactly "AT", and the answer written is the OK response, not the
    ERROR response that byte-for-byte equality on the line gives. *)
Lemma respond_by_line_bytes_fails :
  let t := trace_of (run (replicate 128 255)
                         (map RxByte [65; 84; 0; 88; 13])) in
  dispatched t = [[65; 84; 0; 88]] /\
  responses t = [RESP_OK] /\
  map respond (dispatched t) = [RESP_ERROR] /\
  responses t <> map respond (dispatched t).
Proof. vm_compute. repeat split; discriminate. Qed.

(** C1, amended: the task never faults, and for every line it dispatches it
    writes exactly one response, the Response Table's entry for the line
    read as a NUL-terminated C string (its bytes before the first NUL):
    "AT" gives "\r\nOK\r\n", "AT+CSQ" gives "\r\n+CSQ: 20,99\r\nOK\r\n",
    every other string "\r\nERROR\r\n", by exact equality.  A line without a
    NUL byte is read whole. *)
Theorem responses_follow_c_string (stack : list Z) (ps : list poll) (fuel : nat) :
  length stack = 128%nat ->
  is_Some (fake_modem_task fuel (boot stack ps)) /\
  responses (trace_of (fake_modem_task fuel (boot stack ps)))
  = map (fun acc => respond (c_string acc))
        (dispatched (trace_of (fake_modem_task fuel (boot stack ps)))) /\
  respond CMD_AT = RESP_OK /\
  respond CMD_AT_CSQ = RESP_CSQ /\
  (forall cmd, cmd <> CMD_AT -> cmd <> CMD_AT_CSQ -> respond cmd = RESP_ERROR) /\
  (forall acc, Forall (fun c => c <> NUL) acc -> c_string acc = acc).
Proof.
  intros Hlen. destruct (task_trace fuel stack ps Hlen) as (Hsome & ->).
  split; [exact Hsome|]. split.
  - apply (feed_all_shape (take fuel ps) []); [constructor | simpl; lia].
  - destruct respond_table as (H1 & H2 & H3).
    repeat split; auto using c_string_no_nul.
Qed.

Lemma responses_follow_c_string_witness :
  length (replicate 128 255) = 128%nat /\
  char_codes "AT+UNKNOWN" <> CMD_AT /\ char_codes "AT+UNKNOWN" <> CMD_AT_CSQ /\
  Forall (fun c => c <> NUL) (char_codes "AT") /\
  responses (trace_of (fake_modem_task 5
     (boot (replicate 128 255) (map RxByte [65; 84; 0; 88; 13]))))
  = map (fun acc => respond (c_string acc))
        (dispatched (trace_of (fake_modem_task 5
           (boot (replicate 128 255) (map RxByte [65; 84; 0; 88; 13]))))) /\
  respond (char_codes "AT+UNKNOWN") = RESP_ERROR /\
  c_string (char_codes "AT") = char_codes "AT".
Proof.
  assert (H1 : char_codes "AT+UNKNOWN" <> CMD_AT) by discriminate.
  assert (H2 : char_codes "AT+UNKNOWN" <> CMD_AT_CSQ) by discriminate.
  assert (H3 : Forall (fun c => c <> NUL) (char_codes "AT"))
    by (repeat constructor; discriminate).
  destruct (responses_follow_c_string
              (replicate 128 255) (map RxByte [65; 84; 0; 88; 13]) 5 eq_refl)
    as (_ & Hresp & _ & _ & Herr & Hwhole).
  split; [reflexivity|].
  repeat (split; [assumption|]).
  split; [exact (Herr _ H1 H2) | exact (Hwhole _ H3)].
Defined.

(** ** C2 *)

(** C2, as stated, fails at the empty sequence: it has no terminator in it
    and is shorter than 127 bytes, and feeding it with one terminator
    dispatches no Command Line at all. *)
Lemma empty_sequence_dispatches_nothing :
  no_terminator [] /\ (length (@nil Z) < 127)%nat /\
  dispatched (trace_of (run (replicate 128 255) (map RxByte ([] ++ [CR])))) = [] /\
  dispatched (trace_of (run (replicate 128 255) (map RxByte ([] ++ [CR]))))
  <> [[]].
Proof. split; [constructor|]. vm_compute. repeat split; try lia; discriminate. Qed.

(** C2, amended: for every non-empty byte sequence that has no ['\r'] and no
    ['\n'] in it and is shorter than 127 bytes, feeding its bytes and then
    one terminator to a fresh task calls [process_line] exactly once, with
    exactly the bytes of the sequence accumulated in the buffer, and leaves
    [line_pos] at 0.  [process_line] reads those bytes as a C string: it
    sees the sequence up to its first NUL, the whole sequence when it has no
    NUL byte. *)
Theorem line_dispatched_once (stack s : list Z) (t : Z) :
  length stack = 128%nat ->
  s <> [] -> no_terminator s -> (length s < 127)%nat ->
  is_terminator t = true ->
  exists w' tr,
    run stack (map RxByte (s ++ [t])) = Some (tt, w', tr) /\
    dispatched tr = [s] /\
    line_pos w' = 0 /\
    received tr = [c_string s] /\
    (Forall (fun c => c <> NUL) s -> received tr = [s]) /\
    responses tr = [respond (c_string s)].
Proof.
  intros Hlen Hne Hs Hlt Ht.
  destruct (run_refines stack (map RxByte (s ++ [t])) Hlen)
    as (w' & Hrun & Hw' & _).
  exists w', (snd (feed_all [] (map RxByte (s ++ [t])))).
  split; [exact Hrun|].
  rewrite <- (app_nil_r (map RxByte (s ++ [t]))) in Hw' |- *.
  rewrite (feed_all_line s t []) in Hw' |- * by assumption.
  cbn [fst snd feed_all] in Hw' |- *.
  destruct (store_run_silent s 0) as (H1 & H2 & H3 & _).
  rewrite dispatched_app, received_app, responses_app, H1, H2, H3.
  destruct Hw' as (_ & Hpos & _).
  repeat split; auto.
  intros Hnz. simpl. now rewrite c_string_no_nul.
Qed.

Lemma line_dispatched_once_witness :
  length (replicate 128 255) = 128%nat /\
  char_codes "AT+CSQ" <> [] /\ no_terminator (char_codes "AT+CSQ") /\
  (length (char_codes "AT+CSQ") < 127)%nat /\ is_terminator CR = true /\
  Forall (fun c => c <> NUL) (char_codes "AT+CSQ") /\
  exists w' tr,
    run (replicate 128 255) (map RxByte (char_codes "AT+CSQ" ++ [CR]))
    = Some (tt, w', tr) /\
    dispatched tr = [char_codes "AT+CSQ"] /\
    line_pos w' = 0 /\
    received tr = [char_codes "AT+CSQ"] /\
    responses tr = [RESP_CSQ].
Proof.
  assert (Hnt : no_terminator (char_codes "AT+CSQ"))
    by (repeat constructor).
  assert (Hne : char_codes "AT+CSQ" <> []) by discriminate.
  assert (Hlt : (length (char_codes "AT+CSQ") < 127)%nat) by (simpl; lia).
  assert (Hnz : Forall (fun c => c <> NUL) (char_codes "AT+CSQ"))
    by (repeat constructor; discriminate).
  repeat (split; [assumption || reflexivity|]).
  destruct (line_dispatched_once (replicate 128 255) (char_codes "AT+CSQ") CR
              eq_refl Hne Hnt Hlt eq_refl)
    as (w' & tr & Hrun & Hd & Hp & _ & Hrecv & Hresp).
  exists w', tr. repeat split; auto.
Defined.

(** ** C3 *)



(** ** C4 *)

(** C4: a terminator that arrives while [line_pos] is 0 calls nothing,
    stores nothing and leaves [line_buf] and [line_pos] as they were; so
    ['\r'] then ['\n'] alone dispatch nothing, and a line ended by "\r\n" is
    dispatched exactly once. *)
Theorem terminator_on_empty_buffer :
  (forall (w : world) (t : Z) (rest : list poll),
     line_pos w = 0 -> is_terminator t = true ->
     uart_rx w = RxByte t :: rest ->
     loop_body w = Some (tt, World (line_buf w) (line_pos w) t rest, [])) /\
  (forall stack : list Z,
     run stack [RxByte CR; RxByte LF] = Some (tt, World stack 0 LF [], [])) /\
  (forall (stack s : list Z),
     length stack = 128%nat ->
     s <> [] -> no_terminator s -> (length s < 127)%nat ->
     dispatched (trace_of (run stack (map RxByte (s ++ [CR; LF])))) = [s] /\
     responses (trace_of (run stack (map RxByte (s ++ [CR; LF]))))
     = [respond (c_string s)]).
Proof.
  split; [|split].
  - intros [buf pos by0 rx] t rest Hpos Ht Hrx. simpl in *. subst.
    unfold is_terminator in Ht.
    unfold loop_body, bind, uart_read_bytes, get_byte, get_line_pos, ret.
    step_world. rewrite Ht. reflexivity.
  - intros stack. reflexivity.
  - intros stack s Hlen Hne Hs Hlt.
    rewrite (run_trace _ _ Hlen).
    replace (s ++ [CR; LF]) with ((s ++ [CR]) ++ [LF])
      by (now rewrite <- app_assoc).
    rewrite map_app, (feed_all_line s CR) by auto.
    cbn [snd map]. rewrite feed_all_terminator_empty by reflexivity.
    cbn [feed_all snd].
    destruct (store_run_silent s 0) as (H1 & H2 & _).
    rewrite dispatched_app, responses_app, H1, H2. split; reflexivity.
Qed.

Lemma terminator_on_empty_buffer_witness :
  line_pos (World (replicate 128 255) 0 7 [RxByte LF; RxByte 65]) = 0 /\
  is_terminator LF = true /\
  length (replicate 128 255) = 128%nat /\
  char_codes "AT" <> [] /\ no_terminator (char_codes "AT") /\
  (length (char_codes "AT") < 127)%nat /\
  loop_body (World (replicate 128 255) 0 7 [RxByte LF; RxByte 65])
  = Some (tt, World (replicate 128 255) 0 LF [RxByte 65], []) /\
  dispatched (trace_of (run (replicate 128 255)
                            (map RxByte (char_codes "AT" ++ [CR; LF]))))
  = [char_codes "AT"] /\
  responses (trace_of (run (replicate 128 255)
                           (map RxByte (char_codes "AT" ++ [CR; LF]))))
  = [RESP_OK].
Proof.
  assert (Hne : char_codes "AT" <> []) by discriminate.
  assert (Hnt : no_terminator (char_codes "AT")) by (repeat constructor).
  assert (Hlt : (length (char_codes "AT") < 127)%nat) by (simpl; lia).
  destruct terminator_on_empty_buffer as (Hturn & _ & Hline).
  destruct (Hline (replicate 128 255) (char_codes "AT") eq_refl Hne Hnt Hlt)
    as (Hd & Hr).
  do 3 (split; [reflexivity|]). do 3 (split; [assumption|]).
  split; [|split; [exact Hd | exact Hr]].
  exact (Hturn (World (replicate 128 255) 0 7 [RxByte LF; RxByte 65]) LF
               [RxByte 65] eq_refl eq_refl eq_refl).
Defined.

(** ** C5 *)

(** C5: the code does not lose the whole line.  When the 127th byte of a
    line arrives it resets [line_pos] and prints the diagnostic, as the
    claim and its own comment ("discard the whole line") say, but it goes on
    buffering: the bytes of the line that follow the last reset are
    dispatched at the terminator as a line of their own, and a response is
    sent for them.  The line of 126 bytes [x], then [y], "AT" and ['\r'] is
    answered with the OK response. *)
Theorem overlong_line_tail_is_answered (stack junk : list Z) (t : Z) :
  length stack = 128%nat ->
  no_terminator junk -> (126 < length junk)%nat ->
  (length junk mod 127 <> 0)%nat -> is_terminator t = true ->
  (1 <= overflows (trace_of (run stack (map RxByte (junk ++ [t])))))%nat /\
  drop (127 * (length junk / 127)) junk <> [] /\
  dispatched (trace_of (run stack (map RxByte (junk ++ [t]))))
  = [drop (127 * (length junk / 127)) junk] /\
  responses (trace_of (run stack (map RxByte (junk ++ [t]))))
  = [respond (c_string (drop (127 * (length junk / 127)) junk))] /\
  tx_bytes (trace_of (run stack (map RxByte (junk ++ [t])))) <> [].
Proof.
  intros Hlen Hj Hlong Hmod Ht.
  destruct (feed_all_junk junk [] Hj) as (H1 & H2 & H3 & H4 & H5); [simpl; lia|].
  pose proof (feed_all_junk_pending junk [] Hj) as Hp.
  cbn [app length] in Hp, H4, H5. rewrite Nat.add_0_l in Hp, H4, H5.
  specialize (Hp ltac:(lia)). rewrite Hp in H4.
  assert (Htail : drop (127 * (length junk / 127)) junk <> []).
  { intros E. rewrite E in H4. cbn [length] in H4. congruence. }
  rewrite (run_trace _ _ Hlen), map_app, feed_all_app, Hp. cbn [snd map].
  rewrite feed_all_terminator by assumption.
  cbn [feed_all snd].
  rewrite overflows_app, dispatched_app, responses_app, tx_bytes_app,
    H1, H2, H3, H5.
  split.
  { assert (127 <= length junk)%nat as Hge by lia.
    pose proof (Nat.Div0.div_le_mono _ _ 127 Hge) as Hdiv.
    rewrite Nat.div_same in Hdiv by lia. lia. }
  split; [exact Htail|]. split; [reflexivity|]. split; [reflexivity|].
  change (tx_bytes ?x) with
    (respond (c_string (drop (127 * (length junk / 127)) junk)) ++ []).
  rewrite app_nil_r. apply respond_nonempty.
Qed.

Lemma overlong_line_tail_is_answered_witness :
  length (replicate 128 255) = 128%nat /\
  no_terminator (replicate 126 120 ++ [121; 65; 84]) /\
  (126 < length (replicate 126 120 ++ [121; 65; 84]))%nat /\
  (length (replicate 126 120 ++ [121; 65; 84]) mod 127 <> 0)%nat /\
  is_terminator CR = true /\
  dispatched (trace_of (run (replicate 128 255)
     (map RxByte ((replicate 126 120 ++ [121; 65; 84]) ++ [CR]))))
  = [char_codes "AT"] /\
  responses (trace_of (run (replicate 128 255)
     (map RxByte ((replicate 126 120 ++ [121; 65; 84]) ++ [CR]))))
  = [RESP_OK].
Proof.
  assert (Hj : no_terminator (replicate 126 120 ++ [121; 65; 84])).
  { apply Forall_app. split; [apply Forall_replicate; reflexivity|].
    repeat constructor. }
  assert (Hlong : (126 < length (replicate 126 120 ++ [121; 65; 84]))%nat)
    by (rewrite length_app, length_replicate; simpl; lia).
  assert (Hmod : (length (replicate 126 120 ++ [121; 65; 84]) mod 127 <> 0)%nat)
    by (rewrite length_app, length_replicate; cbn; discriminate).
  destruct (overlong_line_tail_is_answered (replicate 128 255)
              (replicate 126 120 ++ [121; 65; 84]) CR eq_refl Hj Hlong Hmod eq_refl)
    as (_ & _ & Hd & Hr & _).
  split; [reflexivity|]. split; [exact Hj|]. split; [exact Hlong|].
  split; [exact Hmod|]. split; [reflexivity|].
  split; [exact Hd | exact Hr].
Defined.

(** ** C6 *)

(** A store at index 128 or beyond is a fault of the model, so a run that
    does not fault made no such store. *)
Example store_out_of_bounds_faults :
  store_line_buf 128 65 (World (replicate 128 255) 128 7 []) = None /\
  store_line_buf (-1) 65 (World (replicate 128 255) (-1) 7 []) = None.
Proof. split; reflexivity. Qed.

(** C6: whatever arrives on the inbound stream, the task never faults, each
    store into [line_buf] (a data byte or the NUL written at dispatch) has
    an index in [0, 128), the array keeps its 128 cells, and each turn of
    the loop takes exactly one outcome off the inbound stream, so at most
    one byte. *)
Theorem buffer_writes_stay_in_bounds (stack : list Z) (ps : list poll) (fuel : nat) :
  length stack = 128%nat ->
  exists w' tr,
    fake_modem_task fuel (boot stack ps) = Some (tt, w', tr) /\
    Forall (fun i => 0 <= i < LINE_BUF_SIZE) (store_indices tr) /\
    length (line_buf w') = Z.to_nat LINE_BUF_SIZE /\
    uart_rx w' = drop fuel ps /\
    (length (bytes_of (take fuel ps)) <= fuel)%nat.
Proof.
  intros Hlen.
  destruct (fake_modem_task_refines fuel stack ps Hlen)
    as (w' & Hrun & (Hl & _) & Hrx).
  exists w', (snd (feed_all [] (take fuel ps))).
  split; [exact Hrun|]. split; [|split; [exact Hl|split; [exact Hrx|]]].
  - eapply Forall_impl; [apply feed_all_store_indices; simpl; lia|].
    unfold LINE_BUF_SIZE. simpl. intros i Hi. lia.
  - etransitivity; [apply bytes_of_length|]. rewrite length_take. lia.
Qed.

Lemma buffer_writes_stay_in_bounds_witness :
  length (replicate 128 255) = 128%nat /\
  exists w' tr,
    fake_modem_task 300
      (boot (replicate 128 255)
            (map RxByte (replicate 200 120 ++ [CR]) ++ [RxTimeout; RxByte 65]))
    = Some (tt, w', tr) /\
    Forall (fun i => 0 <= i < LINE_BUF_SIZE) (store_indices tr) /\
    length (line_buf w') = Z.to_nat LINE_BUF_SIZE /\
    uart_rx w'
    = drop 300 (map RxByte (replicate 200 120 ++ [CR]) ++ [RxTimeout; RxByte 65]) /\
    (length (bytes_of (take 300
       (map RxByte (replicate 200 120%Z ++ [CR]) ++ [RxTimeout; RxByte 65%Z])))
     <= 300)%nat.
Proof.
  split; [reflexivity|].
  exact (buffer_writes_stay_in_bounds (replicate 128 255)
           (map RxByte (replicate 200 120 ++ [CR]) ++ [RxTimeout; RxByte 65])
           300 eq_refl).
Defined.

(** ** C7 *)

(** C7: after every turn of the loop [0 <= line_pos < 128] (indeed below
    127), and the first [line_pos] cells of [line_buf] are exactly the
    in-progress line that [feed] gives for the bytes received so far: a tail
    end of those bytes, with no terminator in it. *)
Theorem line_buffer_invariant (stack : list Z) (ps : list poll) (fuel : nat) :
  length stack = 128%nat ->
  exists w' tr,
    fake_modem_task fuel (boot stack ps) = Some (tt, w', tr) /\
    0 <= line_pos w' < LINE_BUF_SIZE /\
    line_pos w' < LINE_BUF_SIZE - 1 /\
    take (Z.to_nat (line_pos w')) (line_buf w')
    = in_progress (bytes_of (take fuel ps)) /\
    in_progress (bytes_of (take fuel ps)) `suffix_of` bytes_of (take fuel ps) /\
    no_terminator (in_progress (bytes_of (take fuel ps))).
Proof.
  intros Hlen.
  destruct (fake_modem_task_refines fuel stack ps Hlen)
    as (w' & Hrun & (Hl & Hpos & Htake & Hlt) & Hrx).
  exists w', (snd (feed_all [] (take fuel ps))).
  rewrite feed_all_in_progress in Hpos, Htake, Hlt.
  fold (in_progress (bytes_of (take fuel ps))) in Hpos, Htake, Hlt.
  destruct (in_progress_spec (bytes_of (take fuel ps))) as (Hsuf & Hnt & _).
  unfold LINE_BUF_SIZE.
  split; [exact Hrun|]. split; [lia|]. split; [lia|].
  split; [rewrite Hpos, Nat2Z.id; exact Htake|]. split; assumption.
Qed.

Lemma line_buffer_invariant_witness :
  length (replicate 128 255) = 128%nat /\
  exists w' tr,
    fake_modem_task 4
      (boot (replicate 128 255) (map RxByte (char_codes "AT" ++ [CR; 65; 84])))
    = Some (tt, w', tr) /\
    0 <= line_pos w' < LINE_BUF_SIZE /\
    line_pos w' < LINE_BUF_SIZE - 1 /\
    take (Z.to_nat (line_pos w')) (line_buf w')
    = in_progress (bytes_of (take 4 (map RxByte (char_codes "AT" ++ [CR; 65; 84])))) /\
    in_progress (bytes_of (take 4 (map RxByte (char_codes "AT" ++ [CR; 65; 84]))))
      `suffix_of` bytes_of (take 4 (map RxByte (char_codes "AT" ++ [CR; 65; 84]))) /\
    no_terminator
      (in_progress (bytes_of (take 4 (map RxByte (char_codes "AT" ++ [CR; 65; 84]))))).
Proof.
  split; [reflexivity|].
  exact (line_buffer_invariant (replicate 128 255)
           (map RxByte (char_codes "AT" ++ [CR; 65; 84])) 4 eq_refl).
Defined.

(** ** C8 *)

(** C8, as stated, fails: a NUL byte followed by ['\r'] makes the task call
    [process_line] on a buffer that starts with NUL, so the responder does
    receive the empty string (it logs the empty line and answers ERROR). *)
Lemma empty_string_reaches_responder :
  received (trace_of (run (replicate 128 255) [RxByte NUL; RxByte CR])) = [[]] /\
  responses (trace_of (run (replicate 128 255) [RxByte NUL; RxByte CR]))
  = [RESP_ERROR].
Proof. vm_compute. split; reflexivity. Qed.

(** C8, amended: [process_line] is called only by a turn that read a
    terminator while [line_pos > 0], so the bytes accumulated for every
    call are at least one and hold no terminator; the string the responder
    reads from them is empty exactly when the first of them is NUL. *)
Theorem dispatched_lines_are_nonempty :
  (forall (w : world) (pending : list Z) (b : Z) (rest : list poll),
     holds w pending -> uart_rx w = RxByte b :: rest ->
     dispatched (trace_of (loop_body w))
     = if is_terminator b && (line_pos w >? 0) then [pending] else []) /\
  (forall (stack : list Z) (ps : list poll) (fuel : nat),
     length stack = 128%nat ->
     is_Some (fake_modem_task fuel (boot stack ps)) /\
     Forall (fun acc => acc <> [] /\ no_terminator acc)
            (dispatched (trace_of (fake_modem_task fuel (boot stack ps)))) /\
     received (trace_of (fake_modem_task fuel (boot stack ps)))
     = map c_string (dispatched (trace_of (fake_modem_task fuel (boot stack ps)))) /\
     Forall (fun acc => c_string acc = [] <-> head acc = Some NUL)
            (dispatched (trace_of (fake_modem_task fuel (boot stack ps))))).
Proof.
  split.
  - intros w pending b rest Hw Hrx.
    destruct (loop_body_byte w pending b rest Hw Hrx) as (w' & -> & _).
    destruct Hw as (_ & Hpos & _). rewrite Hpos.
    unfold trace_of, turn_trace. destruct (is_terminator b).
    + destruct pending; [reflexivity|].
      simpl length. destruct (Z.gtb_spec (Z.of_nat (S (length pending))) 0);
        [reflexivity | lia].
    + simpl. now destruct (_ >=? _).
  - intros stack ps fuel Hlen.
    destruct (task_trace fuel stack ps Hlen) as (Hsome & ->).
    destruct (feed_all_shape (take fuel ps) []) as (H1 & H2 & _);
      [constructor | simpl; lia|].
    split; [exact Hsome|]. split; [|split; [exact H2|]].
    + eapply Forall_impl; [exact H1|]. simpl. tauto.
    + eapply Forall_impl; [exact H1|]. simpl.
      intros acc (Hne & _). now apply c_string_empty_iff.
Qed.

Lemma dispatched_lines_are_nonempty_witness :
  holds (World (char_codes "AT" ++ replicate 126 255) 2 7 [RxByte CR])
        (char_codes "AT") /\
  length (replicate 128 255) = 128%nat /\
  dispatched (trace_of (loop_body
     (World (char_codes "AT" ++ replicate 126 255) 2 7 [RxByte CR])))
  = [char_codes "AT"] /\
  Forall (fun acc => acc <> [] /\ no_terminator acc)
    (dispatched (trace_of (fake_modem_task 6
       (boot (replicate 128 255) (map RxByte [NUL; CR; 65; 84; CR]))))).
Proof.
  assert (Hw : holds (World (char_codes "AT" ++ replicate 126 255) 2 7 [RxByte CR])
                     (char_codes "AT")).
  { unfold holds. simpl. repeat split; lia. }
  destruct dispatched_lines_are_nonempty as (Hturn & Hrun).
  split; [exact Hw|]. split; [reflexivity|]. split.
  - exact (Hturn _ _ CR [] Hw eq_refl).
  - exact (proj1 (proj2 (Hrun (replicate 128 255)
                              (map RxByte [NUL; CR; 65; 84; CR]) 6%nat eq_refl))).
Defined.

(** ** C9 *)

(** C9: when a dispatched line holds a NUL byte, the responder's match is
    decided by the bytes before the first NUL alone: the line [p NUL q] is
    logged and answered as [p].  So [A T NUL X] receives the OK response. *)
Theorem nul_byte_cuts_the_match (stack p q : list Z) (t : Z) :
  length stack = 128%nat ->
  Forall (fun c => c <> NUL) p ->
  no_terminator (p ++ NUL :: q) ->
  (length (p ++ NUL :: q) < 127)%nat ->
  is_terminator t = true ->
  dispatched (trace_of (run stack (map RxByte ((p ++ NUL :: q) ++ [t]))))
  = [p ++ NUL :: q] /\
  received (trace_of (run stack (map RxByte ((p ++ NUL :: q) ++ [t])))) = [p] /\
  responses (trace_of (run stack (map RxByte ((p ++ NUL :: q) ++ [t]))))
  = [respond p].
Proof.
  intros Hlen Hp Hnt Hlt Ht.
  assert (Hne : p ++ NUL :: q <> []) by (destruct p; discriminate).
  destruct (line_shape stack (p ++ NUL :: q) t Hlen Hne Hnt Hlt Ht)
    as (Hd & Hrecv & Hresp).
  rewrite c_string_app_nul, c_string_no_nul in Hrecv, Hresp by exact Hp.
  auto.
Qed.

Lemma nul_byte_cuts_the_match_witness :
  length (replicate 128 255) = 128%nat /\
  Forall (fun c => c <> NUL) (char_codes "AT") /\
  no_terminator (char_codes "AT" ++ NUL :: char_codes "X") /\
  (length (char_codes "AT" ++ NUL :: char_codes "X") < 127)%nat /\
  is_terminator CR = true /\
  dispatched (trace_of (run (replicate 128 255)
     (map RxByte ((char_codes "AT" ++ NUL :: char_codes "X") ++ [CR]))))
  = [[65; 84; 0; 88]] /\
  received (trace_of (run (replicate 128 255)
     (map RxByte ((char_codes "AT" ++ NUL :: char_codes "X") ++ [CR]))))
  = [char_codes "AT"] /\
  responses (trace_of (run (replicate 128 255)
     (map RxByte ((char_codes "AT" ++ NUL :: char_codes "X") ++ [CR]))))
  = [RESP_OK].
Proof.
  assert (Hp : Forall (fun c => c <> NUL) (char_codes "AT"))
    by (repeat constructor; discriminate).
  assert (Hnt : no_terminator (char_codes "AT" ++ NUL :: char_codes "X"))
    by (repeat constructor).
  assert (Hlt : (length (char_codes "AT" ++ NUL :: char_codes "X") < 127)%nat)
    by (simpl; lia).
  split; [reflexivity|]. split; [exact Hp|]. split; [exact Hnt|].
  split; [exact Hlt|]. split; [reflexivity|].
  exact (nul_byte_cuts_the_match (replicate 128 255) (char_codes "AT")
           (char_codes "X") CR eq_refl Hp Hnt Hlt eq_refl).
Defined.

(** ** C10 *)

(** C10: a turn whose receive times out (or fails) leaves [line_buf] and
    [line_pos] as they were and emits nothing; so two runs of the task that
    are given the same bytes, however interleaved with timeouts and
    whatever their stacks held, emit the same trace and write the same
    response bytes. *)
Theorem responses_ignore_timeouts :
  (forall (w : world) (p : poll) (rest : list poll),
     uart_rx w = p :: rest -> p = RxTimeout \/ p = RxError ->
     loop_body w
     = Some (tt, World (line_buf w) (line_pos w) (byte w) rest, [])) /\
  (forall (stack1 stack2 : list Z) (ps1 ps2 : list poll) (fuel1 fuel2 : nat),
     length stack1 = 128%nat -> length stack2 = 128%nat ->
     bytes_of ps1 = bytes_of ps2 ->
     (length ps1 <= fuel1)%nat -> (length ps2 <= fuel2)%nat ->
     is_Some (fake_modem_task fuel1 (boot stack1 ps1)) /\
     is_Some (fake_modem_task fuel2 (boot stack2 ps2)) /\
     trace_of (fake_modem_task fuel1 (boot stack1 ps1))
     = trace_of (fake_modem_task fuel2 (boot stack2 ps2)) /\
     responses (trace_of (fake_modem_task fuel1 (boot stack1 ps1)))
     = responses (trace_of (fake_modem_task fuel2 (boot stack2 ps2))) /\
     tx_bytes (trace_of (fake_modem_task fuel1 (boot stack1 ps1)))
     = tx_bytes (trace_of (fake_modem_task fuel2 (boot stack2 ps2)))).
Proof.
  split; [exact loop_body_idle|].
  intros stack1 stack2 ps1 ps2 fuel1 fuel2 Hl1 Hl2 Hbytes Hf1 Hf2.
  destruct (fake_modem_task_enough_fuel fuel1 stack1 ps1 Hl1 Hf1) as (E1 & S1).
  destruct (fake_modem_task_enough_fuel fuel2 stack2 ps2 Hl2 Hf2) as (E2 & S2).
  rewrite E1, E2, (feed_all_bytes_of [] ps1), (feed_all_bytes_of [] ps2), Hbytes.
  repeat split; assumption.
Qed.

Lemma responses_ignore_timeouts_witness :
  uart_rx (World (char_codes "AT" ++ replicate 126 255) 2 84
                 [RxTimeout; RxByte CR]) = RxTimeout :: [RxByte CR] /\
  length (replicate 128 255) = 128%nat /\ length (replicate 128 0) = 128%nat /\
  bytes_of [RxByte 65; RxTimeout; RxByte 84; RxError; RxTimeout; RxByte CR]
  = bytes_of (map RxByte [65; 84; CR]) /\
  loop_body (World (char_codes "AT" ++ replicate 126 255) 2 84
                   [RxTimeout; RxByte CR])
  = Some (tt, World (char_codes "AT" ++ replicate 126 255) 2 84 [RxByte CR], []) /\
  tx_bytes (trace_of (fake_modem_task 9
     (boot (replicate 128 255)
           [RxByte 65; RxTimeout; RxByte 84; RxError; RxTimeout; RxByte CR])))
  = tx_bytes (trace_of (fake_modem_task 3
     (boot (replicate 128 0) (map RxByte [65; 84; CR])))).
Proof.
  destruct responses_ignore_timeouts as (Hturn & Hrun).
  do 4 (split; [reflexivity|]). split.
  - exact (Hturn (World (char_codes "AT" ++ replicate 126 255) 2 84
                        [RxTimeout; RxByte CR])
                 RxTimeout [RxByte CR] eq_refl (or_introl eq_refl)).
  - assert (H9 : (length [RxByte 65; RxTimeout; RxByte 84; RxError; RxTimeout;
                          RxByte CR] <= 9)%nat) by (simpl; lia).
    assert (H3 : (length (map RxByte [65%Z; 84%Z; CR]) <= 3)%nat) by (simpl; lia).
    exact (proj2 (proj2 (proj2 (proj2
             (Hrun (replicate 128 255) (replicate 128 0)
                   [RxByte 65; RxTimeout; RxByte 84; RxError; RxTimeout;
                    RxByte CR]
                   (map RxByte [65; 84; CR]) 9%nat 3%nat
                   eq_refl eq_refl eq_refl H9 H3))))).
Defined.

(** * The program around the fake modem: main.c and [fake_modem_start] *)

Lemma tx_on_app (port : Z) (t u : list event) :
  tx_on port (t ++ u) = tx_on port t ++ tx_on port u.
Proof. unfold tx_on. now rewrite map_app, concat_app. Qed.

(** The fake modem task writes on its own UART only. *)
Lemma feed_all_tx_on (ps : list poll) :
  forall pending,
    tx_on FAKE_MODEM_UART_NUM (snd (feed_all pending ps))
    = tx_bytes (snd (feed_all pending ps)).
Proof.
  induction ps as [|p ps IH]; intros pending; [reflexivity|].
  destruct p as [b| |]; cbn [feed_all fst snd]; [|apply IH..].
  rewrite tx_on_app, tx_bytes_app, IH. f_equal.
  unfold turn_trace. destruct (is_terminator b).
  - destruct pending; reflexivity.
  - now destruct (_ >=? _).
Qed.

(** When the fake modem task runs it empties its inbound stream, as
    [feed_all] says, and its answers arrive on UART1 RX. *)
Lemma yield_running (s : system) (pending : list Z) :
  modem_running s = true -> holds (modem s) pending ->
  exists m',
    yield s
    = Some (tt, System m' true
                  (uart1_rx s
                   ++ tx_bytes (snd (feed_all pending (uart_rx (modem s)))))
                  (rx_buf s),
            map EvModem (snd (feed_all pending (uart_rx (modem s))))) /\
    holds m' (fst (feed_all pending (uart_rx (modem s)))) /\
    uart_rx m' = [].
Proof.
  intros Hrun Hm. unfold yield. rewrite Hrun.
  destruct (task_loop_refines (length (uart_rx (modem s))) (modem s) pending Hm)
    as (m' & -> & Hm' & Hrx).
  rewrite firstn_all in *. rewrite drop_all in Hrx.
  exists m'. rewrite feed_all_tx_on. auto.
Qed.

Lemma yield_quiet (m : world) (a b : list Z) :
  uart_rx m = [] ->
  yield (System m true a b) = Some (tt, System m true (a ++ []) b, []).
Proof. intros H. unfold yield. cbn [modem_running modem]. now rewrite H. Qed.

Lemma read_upto_c_string (p : nat) (c r : list Z) :
  read_upto p (c ++ NUL :: r) = Some (take p (c_string c)).
Proof.
  revert c. induction p as [|p IH]; intros c; [reflexivity|].
  destruct c as [|x c]; cbn [read_upto app c_string]; [reflexivity|].
  destruct (x =? NUL); [reflexivity|]. now rewrite IH.
Qed.

Lemma printf_prec_s_c_string (prec : Z) (c r : list Z) :
  printf_prec_s prec (c ++ NUL :: r)
  = Some (if prec <? 0 then c_string c
          else take (Z.to_nat prec) (c_string c)).
Proof.
  unfold printf_prec_s. destruct (prec <? 0).
  - rewrite strlen_app_nul. cbn. now rewrite Nat2Z.id, take_c_string.
  - apply read_upto_c_string.
Qed.

Ltac step_system :=
  cbv beta;
  cbn [modem modem_running uart1_rx rx_buf uart_rx line_buf line_pos byte
       app fst snd].

(** The reading half of [send_at_command], on what has arrived. *)
Lemma read_and_report (m : world) (arrived buf : list Z) :
  uart_rx m = [] -> length buf = 128%nat ->
  (len <- main_uart_read_bytes (RX_BUF_SIZE - 1) ;;
   if len >? 0 then
     store_rx_buf len NUL ;;
     buf <- get_rx_buf ;;
     k <- slift (strlen buf) ;;
     semit (EvMain (MainResponse len (take (Z.to_nat k) buf)))
   else semit (EvMain MainNoResponse))%sys (System m true arrived buf)
  = Some (tt, System m true (drop 127 arrived) (rx_buf_after arrived buf),
          report_of arrived).
Proof.
  intros Hrx Hbuf.
  unfold main_uart_read_bytes, sbind at 1 2. rewrite (yield_quiet _ _ _ Hrx).
  rewrite app_nil_r. step_system. unfold RX_BUF_SIZE. rewrite Hbuf.
  change ((0 <=? 128 - 1) && (128 - 1 <=? Z.of_nat 128)) with true.
  change (Z.to_nat (128 - 1)) with 127%nat.
  cbv iota. unfold rx_buf_after, report_of.
  assert (Hlen : (length (take 127 arrived) <= 127)%nat)
    by (rewrite length_take; lia).
  destruct (take 127 arrived) as [|x data] eqn:Hd.
  - reflexivity.
  - set (d := x :: data) in *.
    assert (Hpos : (0 < length d)%nat) by (subst d; simpl; lia).
    destruct (Z.gtb_spec (Z.of_nat (length d)) 0) as [_|]; [|lia].
    unfold sbind, store_rx_buf, get_rx_buf, slift, semit, RX_BUF_SIZE.
    step_system.
    assert (Hl : length (d ++ drop (length d) buf) = 128%nat)
      by (rewrite length_app, length_drop; lia).
    rewrite Hl.
    destruct (Z.leb_spec 0 (Z.of_nat (length d))); [|lia].
    destruct (Z.ltb_spec (Z.of_nat (length d)) 128); [|lia].
    change (Z.of_nat (length d) <? Z.of_nat 128)
      with (Z.of_nat (length d) <? 128).
    destruct (Z.ltb_spec (Z.of_nat (length d)) 128); [|lia].
    cbn [andb]. step_system. rewrite Nat2Z.id.
    rewrite insert_app_r_alt by lia. rewrite Nat.sub_diag.
    destruct (drop (length d) buf) as [|y rest] eqn:Hdrop.
    { rewrite length_app in Hl. subst d. simpl in *. lia. }
    cbn [insert list_insert]. rewrite strlen_app_nul. step_system.
    rewrite Nat2Z.id, take_c_string. reflexivity.
Qed.

Lemma sbind_ok {A B} (c : Sys A) (k : A -> Sys B) (s s1 : system) (a : A)
    (t1 : list sys_event) :
  c s = Some (a, s1, t1) ->
  sbind c k s
  = match k a s1 with
    | None => None
    | Some (b, s2, t2) => Some (b, s2, t1 ++ t2)
    end.
Proof. intros H. unfold sbind. now rewrite H. Qed.

Lemma vTaskDelay_running (ms : Z) (s : system) (pending : list Z) :
  modem_running s = true -> holds (modem s) pending ->
  exists m',
    vTaskDelay ms s
    = Some (tt, System m' true
                  (uart1_rx s
                   ++ tx_bytes (snd (feed_all pending (uart_rx (modem s)))))
                  (rx_buf s),
            EvDelay ms
            :: map EvModem (snd (feed_all pending (uart_rx (modem s))))) /\
    holds m' (fst (feed_all pending (uart_rx (modem s)))) /\
    uart_rx m' = [].
Proof.
  intros Hrun Hm.
  destruct (yield_running s pending Hrun Hm) as (m' & Hy & Hm' & Hrx).
  exists m'. unfold vTaskDelay, sbind, semit. rewrite Hy. auto.
Qed.

(** [send_at_command] while the fake modem task runs, in full. *)
Lemma send_at_command_running (c r : list Z) (s : system) (pending : list Z) :
  ready s pending ->
  exists m',
    holds m' (fst (feed_all pending
                     (uart_rx (modem s) ++ map RxByte (c_string c)))) /\
    uart_rx m' = [] /\
    send_at_command (c ++ NUL :: r) s
    = Some (tt,
            System m' true
              (drop 127
                 (uart1_rx s ++ tx_bytes (snd (feed_all pending
                    (uart_rx (modem s) ++ map RxByte (c_string c))))))
              (rx_buf_after
                 (uart1_rx s ++ tx_bytes (snd (feed_all pending
                    (uart_rx (modem s) ++ map RxByte (c_string c)))))
                 (rx_buf s)),
            [EvMain (MainSending (shown_command (c_string c)));
             EvTx MODEM_UART_NUM (c_string c); EvDelay 200]
            ++ map EvModem (snd (feed_all pending
                 (uart_rx (modem s) ++ map RxByte (c_string c))))
            ++ report_of
                 (uart1_rx s ++ tx_bytes (snd (feed_all pending
                    (uart_rx (modem s) ++ map RxByte (c_string c)))))).
Proof.
  intros (Hrun & Hm & Hbuf). destruct s as [m run a buf].
  cbn [modem modem_running uart1_rx rx_buf] in *. subst run.
  set (s1 := System (World (line_buf m) (line_pos m) (byte m)
                           (uart_rx m ++ map RxByte (c_string c)))
                    true a buf).
  assert (Hm1 : holds (modem s1) pending) by exact Hm.
  destruct (vTaskDelay_running 200 s1 pending eq_refl Hm1)
    as (m' & Hd & Hm' & Hrx').
  exists m'. split; [exact Hm'|]. split; [exact Hrx'|].
  unfold send_at_command.
  erewrite sbind_ok
    by (unfold slift; rewrite strlen_app_nul; reflexivity).
  erewrite sbind_ok
    by (unfold slift; rewrite printf_prec_s_c_string; reflexivity).
  erewrite sbind_ok by reflexivity.
  erewrite sbind_ok
    by (unfold slift; rewrite strlen_app_nul; reflexivity).
  erewrite (sbind_ok (main_uart_write_bytes _ _ _) _ _ s1 tt
                     [EvTx MODEM_UART_NUM (c_string c)]).
  2:{ unfold main_uart_write_bytes. rewrite Nat2Z.id, take_c_string.
      pose proof (c_string_length c) as Hc.
      rewrite length_app. cbn [length].
      destruct (Z.leb_spec 0 (Z.of_nat (length (c_string c)))); [|lia].
      destruct (Z.leb_spec (Z.of_nat (length (c_string c)))
                           (Z.of_nat (length c + S (length r)))); [|lia].
      reflexivity. }
  erewrite sbind_ok by exact Hd.
  cbn [modem uart_rx uart1_rx rx_buf s1].
  rewrite (read_and_report m' _ buf Hrx' Hbuf).
  reflexivity.
Qed.

(** * More about the fake modem task *)

Lemma feed_all_terminators_empty (ts : list Z) (ps : list poll) :
  Forall (fun b => is_terminator b = true) ts ->
  feed_all [] (map RxByte ts ++ ps) = feed_all [] ps.
Proof.
  induction 1 as [|t ts Ht _ IH]; [reflexivity|].
  cbn [map app]. now rewrite feed_all_terminator_empty.
Qed.

(** One well-framed line at the head of the stream. *)
Lemma feed_all_framed (l : list Z * list Z) (ps : list poll) :
  well_framed l ->
  feed_all [] (map RxByte (fst l ++ snd l) ++ ps)
  = (fst (feed_all [] ps),
     store_run 0 (fst l) ++
     [Store (Z.of_nat (length (fst l))) NUL; Dispatch (fst l);
      Printf (MsgReceived (c_string (fst l)));
      UartWrite FAKE_MODEM_UART_NUM (respond (c_string (fst l)))]
     ++ snd (feed_all [] ps)).
Proof.
  destruct l as [body ts]. unfold well_framed. cbn [fst snd].
  intros (Hne & Hnt & Hlt & Hts & Hall).
  destruct ts as [|t ts]; [contradiction|].
  inversion Hall as [|? ? Ht Hrest]; subst.
  replace (body ++ t :: ts) with ((body ++ [t]) ++ ts)
    by (now rewrite <- app_assoc).
  rewrite (map_app _ (body ++ [t])), <- app_assoc.
  rewrite (feed_all_line body t) by assumption.
  now rewrite feed_all_terminators_empty.
Qed.

Lemma feed_all_on_wire (lines : list (list Z * list Z)) :
  Forall well_framed lines ->
  fst (feed_all [] (map RxByte (on_wire lines))) = [] /\
  dispatched (snd (feed_all [] (map RxByte (on_wire lines)))) = map fst lines /\
  responses (snd (feed_all [] (map RxByte (on_wire lines))))
  = map (fun l => respond (c_string (fst l))) lines.
Proof.
  induction 1 as [|l lines Hl _ (IH1 & IH2 & IH3)]; [repeat split|].
  unfold on_wire in *. cbn [map concat].
  rewrite map_app, (feed_all_framed l _ Hl). cbn [fst snd].
  destruct (store_run_silent (fst l) 0) as (H1 & H2 & _).
  rewrite !dispatched_app, !responses_app, H1, H2, IH2, IH3.
  repeat split; assumption.
Qed.

Lemma feed_all_same_framing (bs1 bs2 : list Z) :
  Forall2 same_framing bs1 bs2 ->
  forall pending,
    feed_all pending (map RxByte bs1) = feed_all pending (map RxByte bs2).
Proof.
  induction 1 as [|b1 b2 bs1 bs2 Hb _ IH]; intros pending; [reflexivity|].
  cbn [map feed_all].
  assert (Hstep : feed pending b1 = feed pending b2 /\
                  turn_trace pending b1 = turn_trace pending b2).
  { destruct Hb as [->|(H1 & H2)]; [auto|].
    unfold feed, turn_trace. now rewrite H1, H2. }
  destruct Hstep as (-> & ->). now rewrite IH.
Qed.

Lemma respond_canned (cmd : list Z) : respond cmd ∈ canned.
Proof.
  unfold respond, canned.
  rewrite !elem_of_cons.
  destruct (decide (cmd = CMD_AT)); [auto|].
  destruct (decide (cmd = CMD_AT_CSQ)); auto.
Qed.

Lemma canned_format (r : list Z) :
  r ∈ canned ->
  [CR; LF] `prefix_of` r /\ [CR; LF] `suffix_of` r /\
  Forall (fun c => c <> NUL) r /\ (6 <= length r <= 19)%nat.
Proof.
  unfold canned. rewrite !elem_of_cons, elem_of_nil.
  intros [-> | [-> | [-> | []]]].
  - split; [now eexists|]. split; [now exists (firstn 4 RESP_OK)|].
    split; [repeat constructor; discriminate | simpl; lia].
  - split; [now eexists|]. split; [now exists (firstn 17 RESP_CSQ)|].
    split; [repeat constructor; discriminate | simpl; lia].
  - split; [now eexists|]. split; [now exists (firstn 7 RESP_ERROR)|].
    split; [repeat constructor; discriminate | simpl; lia].
Qed.

Lemma uart_writes_app (t u : list event) :
  uart_writes (t ++ u) = uart_writes t ++ uart_writes u.
Proof. apply omap_app. Qed.

Lemma feed_all_uart_writes (ps : list poll) :
  forall pending,
    uart_writes (snd (feed_all pending ps))
    = map (fun r => (FAKE_MODEM_UART_NUM, r)) (responses (snd (feed_all pending ps))).
Proof.
  induction ps as [|p ps IH]; intros pending; [reflexivity|].
  destruct p as [b| |]; cbn [feed_all fst snd]; [|apply IH..].
  rewrite uart_writes_app, responses_app, map_app, IH. f_equal.
  unfold turn_trace. destruct (is_terminator b).
  - destruct pending; reflexivity.
  - now destruct (_ >=? _).
Qed.

Lemma tx_bytes_concat_responses (t : list event) :
  tx_bytes t = concat (responses t).
Proof.
  induction t as [|e t IH]; [reflexivity|].
  change (e :: t) with ([e] ++ t).
  rewrite tx_bytes_app, responses_app, concat_app, IH. f_equal.
  destruct e; reflexivity.
Qed.

Lemma terminators_cons (b : Z) (bs : list Z) :
  terminators (b :: bs)
  = ((if is_terminator b then 1 else 0) + terminators bs)%nat.
Proof.
  unfold terminators. rewrite filter_cons.
  destruct (decide (is_terminator b = true)) as [E|E].
  - now rewrite E.
  - destruct (is_terminator b); [contradiction | reflexivity].
Qed.

Lemma body_bytes_cons (b : Z) (bs : list Z) :
  body_bytes (b :: bs)
  = ((if is_terminator b then 0 else 1) + body_bytes bs)%nat.
Proof.
  unfold body_bytes. rewrite filter_cons.
  destruct (decide (is_terminator b = false)) as [E|E].
  - now rewrite E.
  - destruct (is_terminator b); [reflexivity | contradiction].
Qed.

(** Each call of [process_line] takes a terminator and at least one body
    byte of the input. *)
Lemma feed_all_rate (ps : list poll) :
  forall pending,
    (length (dispatched (snd (feed_all pending ps)))
     <= terminators (bytes_of ps))%nat /\
    (length (dispatched (snd (feed_all pending ps)))
     <= (if decide (pending = []) then 0 else 1) + body_bytes (bytes_of ps))%nat.
Proof.
  induction ps as [|p ps IH]; intros pending.
  - cbn. split; lia.
  - destruct p as [b| |]; cbn [feed_all fst snd]; [|apply IH..].
    change (bytes_of (RxByte b :: ps)) with (b :: bytes_of ps).
    rewrite terminators_cons, body_bytes_cons, dispatched_app, length_app.
    destruct (IH (fst (feed pending b))) as (IH1 & IH2).
    unfold feed, turn_trace in *.
    destruct (is_terminator b) eqn:Hb.
    + destruct pending as [|x pending]; cbn [fst] in *.
      * rewrite decide_True in IH2 |- * by reflexivity. simpl in *. lia.
      * rewrite decide_True in IH2 by reflexivity.
        rewrite decide_False by discriminate. simpl in *. lia.
    + replace (dispatched (Store (Z.of_nat (length pending)) b :: _))
        with (@nil (list Z)) by (now destruct (_ >=? _)).
      destruct (decide (pending = [])), (decide (_ = [])) in IH2;
        simpl in *; lia.
Qed.

Lemma strlen_no_nul (s : list Z) :
  Forall (fun c => c <> NUL) s -> strlen s = None.
Proof.
  induction 1 as [|x s Hx _ IH]; [reflexivity|].
  cbn [strlen]. destruct (Z.eqb_spec x NUL); [contradiction|].
  now rewrite IH.
Qed.

(** ** X1 *)

(** X1: [send_response] makes one [uart_write_bytes] call on the fake
    modem's UART with exactly the bytes before the first NUL of its
    argument, and changes nothing in the task; on an array without a NUL
    its [strlen] runs off the end. *)
Theorem send_response_writes_c_string :
  (forall (s r : list Z) (w : world),
     send_response (s ++ NUL :: r) w
     = Some (tt, w, [UartWrite FAKE_MODEM_UART_NUM (c_string s)])) /\
  (forall (s : list Z) (w : world),
     Forall (fun c => c <> NUL) s -> send_response s w = None).
Proof.
  split.
  - intros s r w. unfold send_response, bind, lift, uart_write_bytes.
    rewrite strlen_app_nul, Nat2Z.id, take_c_string, length_app.
    pose proof (c_string_length s) as Hc. cbn [length].
    destruct (Z.leb_spec 0 (Z.of_nat (length (c_string s)))); [|lia].
    destruct (Z.leb_spec (Z.of_nat (length (c_string s)))
                         (Z.of_nat (length s + S (length r)))); [|lia].
    reflexivity.
  - intros s w Hs. unfold send_response, bind, lift.
    now rewrite (strlen_no_nul s Hs).
Qed.

Lemma send_response_writes_c_string_witness :
  Forall (fun c => c <> NUL) (char_codes "OK") /\
  send_response (char_codes "OK" ++ NUL :: char_codes "junk")
                (boot (replicate 128 255) [])
  = Some (tt, boot (replicate 128 255) [],
          [UartWrite FAKE_MODEM_UART_NUM (char_codes "OK")]) /\
  send_response (char_codes "OK") (boot (replicate 128 255) []) = None.
Proof.
  assert (H : Forall (fun c => c <> NUL) (char_codes "OK"))
    by (repeat constructor; discriminate).
  destruct send_response_writes_c_string as (Hok & Hfault).
  split; [exact H|]. split.
  - exact (Hok (char_codes "OK") (char_codes "junk") (boot (replicate 128 255) [])).
  - exact (Hfault (char_codes "OK") (boot (replicate 128 255) []) H).
Defined.

(** ** X2 *)

(** X2: whatever arrives, every [uart_write_bytes] call of the task is on
    the fake modem's own UART and carries one of the three scripted
    responses; so each response starts and ends with "\r\n", is 6 to 19
    bytes long, and no NUL byte and no byte of the input is ever sent. *)
Theorem task_writes_only_canned_responses
    (stack : list Z) (ps : list poll) (fuel : nat) :
  length stack = 128%nat ->
  Forall (fun pw => fst pw = FAKE_MODEM_UART_NUM /\ snd pw ∈ canned)
         (uart_writes (trace_of (fake_modem_task fuel (boot stack ps)))) /\
  Forall (fun r => [CR; LF] `prefix_of` r /\ [CR; LF] `suffix_of` r /\
                   (6 <= length r <= 19)%nat)
         (responses (trace_of (fake_modem_task fuel (boot stack ps)))) /\
  Forall (fun c => c <> NUL)
         (tx_bytes (trace_of (fake_modem_task fuel (boot stack ps)))).
Proof.
  intros Hlen. destruct (task_trace fuel stack ps Hlen) as (_ & ->).
  destruct (feed_all_shape (take fuel ps) []) as (_ & _ & Hresp & _);
    [constructor | simpl; lia|].
  assert (Hcanned : Forall (fun r => r ∈ canned)
            (responses (snd (feed_all [] (take fuel ps))))).
  { rewrite Hresp. apply Forall_fmap, Forall_true. intros acc.
    apply respond_canned. }
  split; [|split].
  - rewrite feed_all_uart_writes. apply Forall_fmap.
    eapply Forall_impl; [exact Hcanned|]. simpl. auto.
  - eapply Forall_impl; [exact Hcanned|]. intros r Hr.
    destruct (canned_format r Hr) as (H1 & H2 & _ & H4). auto.
  - rewrite tx_bytes_concat_responses. apply Forall_concat.
    eapply Forall_impl; [exact Hcanned|]. intros r Hr.
    now destruct (canned_format r Hr) as (_ & _ & H3 & _).
Qed.

Lemma task_writes_only_canned_responses_witness :
  length (replicate 128 255) = 128%nat /\
  Forall (fun pw => fst pw = FAKE_MODEM_UART_NUM /\ snd pw ∈ canned)
    (uart_writes (trace_of (fake_modem_task 9
       (boot (replicate 128 255) (map RxByte [65; 84; CR; 0; 120; LF; 88]))))).
Proof.
  split; [reflexivity|].
  exact (proj1 (task_writes_only_canned_responses (replicate 128 255)
                  (map RxByte [65; 84; CR; 0; 120; LF; 88]) 9%nat eq_refl)).
Defined.

(** ** X3 *)

(** X3: the task answers no more often than it was asked: each response
    takes one call of [process_line], the calls are no more than the
    terminator bytes received and no more than the body bytes received, and
    the bytes sent are at most 19 per response. *)
Theorem responses_bounded_by_input
    (stack : list Z) (ps : list poll) (fuel : nat) :
  length stack = 128%nat ->
  length (responses (trace_of (fake_modem_task fuel (boot stack ps))))
  = length (dispatched (trace_of (fake_modem_task fuel (boot stack ps)))) /\
  (length (responses (trace_of (fake_modem_task fuel (boot stack ps))))
   <= terminators (bytes_of (take fuel ps)))%nat /\
  (length (responses (trace_of (fake_modem_task fuel (boot stack ps))))
   <= body_bytes (bytes_of (take fuel ps)))%nat /\
  (length (tx_bytes (trace_of (fake_modem_task fuel (boot stack ps))))
   <= 19 * length (responses (trace_of (fake_modem_task fuel (boot stack ps)))))%nat.
Proof.
  intros Hlen. destruct (task_trace fuel stack ps Hlen) as (_ & ->).
  destruct (feed_all_shape (take fuel ps) []) as (_ & _ & Hresp & _);
    [constructor | simpl; lia|].
  destruct (feed_all_rate (take fuel ps) []) as (H1 & H2).
  rewrite decide_True in H2 by reflexivity.
  assert (Hl : length (responses (snd (feed_all [] (take fuel ps))))
               = length (dispatched (snd (feed_all [] (take fuel ps)))))
    by (rewrite Hresp; apply length_map).
  rewrite Hl. repeat split; try lia.
  rewrite <- Hl, tx_bytes_concat_responses, Hresp.
  generalize (dispatched (snd (feed_all [] (take fuel ps)))). intros l.
  induction l as [|acc l IH]; [simpl; lia|].
  cbn [map concat]. rewrite length_app. cbn [length].
  destruct (canned_format _ (respond_canned (c_string acc))) as (_ & _ & _ & H).
  lia.
Qed.

Lemma responses_bounded_by_input_witness :
  length (replicate 128 255) = 128%nat /\
  let ps := map RxByte [65; 84; CR; LF; LF; 88; CR] in
  (length (responses (trace_of (fake_modem_task 9
                                  (boot (replicate 128 255%Z) ps))))
   <= terminators (bytes_of (take 9 ps)))%nat.
Proof.
  split; [reflexivity|].
  exact (proj1 (proj2 (responses_bounded_by_input (replicate 128 255)
           (map RxByte [65; 84; CR; LF; LF; 88; CR]) 9%nat eq_refl))).
Defined.

(** ** X4 *)

(** X4: ['\r'] and ['\n'] are one and the same to the task: two inbound
    byte sequences that differ only in which of the two terminators stands
    at a place give the same calls, logs and responses. *)
Theorem terminators_are_interchangeable (stack1 stack2 bs1 bs2 : list Z) :
  length stack1 = 128%nat -> length stack2 = 128%nat ->
  Forall2 same_framing bs1 bs2 ->
  trace_of (run stack1 (map RxByte bs1)) = trace_of (run stack2 (map RxByte bs2)).
Proof.
  intros H1 H2 Hbs. rewrite (run_trace _ _ H1), (run_trace _ _ H2).
  now rewrite (feed_all_same_framing bs1 bs2 Hbs).
Qed.

Lemma terminators_are_interchangeable_witness :
  length (replicate 128 255) = 128%nat /\ length (replicate 128 0) = 128%nat /\
  Forall2 same_framing (char_codes "AT" ++ [CR; LF; 88; LF])
                       (char_codes "AT" ++ [LF; LF; 88; CR]) /\
  trace_of (run (replicate 128 255)
                (map RxByte (char_codes "AT" ++ [CR; LF; 88; LF])))
  = trace_of (run (replicate 128 0)
                  (map RxByte (char_codes "AT" ++ [LF; LF; 88; CR]))).
Proof.
  assert (H : Forall2 same_framing (char_codes "AT" ++ [CR; LF; 88; LF])
                                   (char_codes "AT" ++ [LF; LF; 88; CR])).
  { repeat constructor; (now left) || (right; split; reflexivity). }
  split; [reflexivity|]. split; [reflexivity|]. split; [exact H|].
  exact (terminators_are_interchangeable (replicate 128 255) (replicate 128 0)
           _ _ eq_refl eq_refl H).
Defined.

(** ** X5 *)

(** X5: lines are answered one by one in the order they arrive, and no
    line leaves anything behind for the next: for bodies that are not
    empty, hold no terminator and are shorter than 127 bytes, each followed
    by one or more terminators, [process_line] is called once per line with
    that line, the responses are the table's entries for the lines in
    order, and [line_pos] is 0 at the end. *)
Theorem lines_answered_in_order (stack : list Z) (lines : list (list Z * list Z)) :
  length stack = 128%nat -> Forall well_framed lines ->
  exists w' tr,
    run stack (map RxByte (on_wire lines)) = Some (tt, w', tr) /\
    dispatched tr = map fst lines /\
    responses tr = map (fun l => respond (c_string (fst l))) lines /\
    line_pos w' = 0.
Proof.
  intros Hlen Hlines.
  destruct (run_refines stack (map RxByte (on_wire lines)) Hlen)
    as (w' & Hrun & (_ & Hpos & _) & _).
  destruct (feed_all_on_wire lines Hlines) as (H1 & H2 & H3).
  exists w', (snd (feed_all [] (map RxByte (on_wire lines)))).
  rewrite H1 in Hpos. auto.
Qed.

Lemma lines_answered_in_order_witness :
  length (replicate 128 255) = 128%nat /\
  Forall well_framed [(char_codes "AT+CSQ", [CR; LF]); (char_codes "at", [LF]);
                      (char_codes "AT", [CR; CR; LF])] /\
  exists w' tr,
    run (replicate 128 255)
        (map RxByte (on_wire [(char_codes "AT+CSQ", [CR; LF]);
                              (char_codes "at", [LF]);
                              (char_codes "AT", [CR; CR; LF])]))
    = Some (tt, w', tr) /\
    dispatched tr = [char_codes "AT+CSQ"; char_codes "at"; char_codes "AT"] /\
    responses tr = [RESP_CSQ; RESP_ERROR; RESP_OK] /\
    line_pos w' = 0.
Proof.
  assert (H : Forall well_framed
                [(char_codes "AT+CSQ", [CR; LF]); (char_codes "at", [LF]);
                 (char_codes "AT", [CR; CR; LF])]).
  { repeat constructor; simpl; try discriminate; lia. }
  split; [reflexivity|]. split; [exact H|].
  exact (lines_answered_in_order (replicate 128 255) _ eq_refl H).
Defined.

(** ** X6 *)

(** X6: a line longer than 126 bytes is not dropped whole.  Of [n] body
    bytes followed by a terminator, every full block of 127 bytes is
    dropped with one overflow diagnostic, and the [n mod 127] bytes that
    remain are dispatched as a line of their own and answered; nothing is
    dispatched when [n] is a multiple of 127. *)
Theorem overlong_line_keeps_its_tail (stack junk : list Z) (t : Z) :
  length stack = 128%nat -> no_terminator junk -> is_terminator t = true ->
  dispatched (trace_of (run stack (map RxByte (junk ++ [t]))))
  = (if decide (length junk mod 127 = 0)%nat then []
     else [drop (127 * (length junk / 127)) junk]) /\
  responses (trace_of (run stack (map RxByte (junk ++ [t]))))
  = map (fun acc => respond (c_string acc))
        (dispatched (trace_of (run stack (map RxByte (junk ++ [t]))))) /\
  overflows (trace_of (run stack (map RxByte (junk ++ [t]))))
  = (length junk / 127)%nat.
Proof.
  intros Hlen Hj Ht. rewrite (run_trace _ _ Hlen).
  destruct (feed_all_shape (map RxByte (junk ++ [t])) []) as (_ & _ & Hresp & _);
    [constructor | simpl; lia|].
  split; [|split; [exact Hresp|]].
  - rewrite map_app, feed_all_app. cbn [snd].
    destruct (feed_all_junk junk [] Hj) as (H1 & _ & _ & H4 & _); [simpl; lia|].
    rewrite dispatched_app, H1.
    rewrite (feed_all_junk_pending junk [] Hj) in * by (simpl; lia).
    cbn [app length] in *. rewrite Nat.add_0_l in *.
    cbn [map feed_all snd fst]. unfold turn_trace. rewrite Ht.
    destruct (drop (127 * (length junk / 127)) junk) as [|x l] eqn:Hd.
    + cbn [length] in H4. rewrite decide_True by (symmetry; exact H4).
      reflexivity.
    + cbn [length] in H4.
      rewrite decide_False by (intros E; rewrite E in H4; discriminate).
      reflexivity.
  - rewrite map_app, feed_all_app. cbn [snd].
    destruct (feed_all_junk junk [] Hj) as (_ & _ & _ & _ & H5); [simpl; lia|].
    rewrite overflows_app, H5. cbn [app length]. rewrite Nat.add_0_l.
    cbn [map feed_all snd fst]. unfold turn_trace. rewrite Ht.
    destruct (fst (feed_all [] (map RxByte junk)));
      [change (overflows ([] ++ [])) with 0%nat
      |match goal with |- context [overflows ?x] =>
         change (overflows x) with 0%nat end];
      apply Nat.add_0_r.
Qed.

Lemma overlong_line_keeps_its_tail_witness :
  length (replicate 128 255) = 128%nat /\
  no_terminator (replicate 127 120 ++ char_codes "AT") /\
  is_terminator CR = true /\
  dispatched (trace_of (run (replicate 128 255)
     (map RxByte ((replicate 127 120 ++ char_codes "AT") ++ [CR]))))
  = [char_codes "AT"] /\
  responses (trace_of (run (replicate 128 255)
     (map RxByte ((replicate 127 120 ++ char_codes "AT") ++ [CR]))))
  = [RESP_OK].
Proof.
  assert (H : no_terminator (replicate 127 120 ++ char_codes "AT")).
  { apply Forall_app. split; [apply Forall_replicate; reflexivity|].
    repeat constructor. }
  destruct (overlong_line_keeps_its_tail (replicate 128 255)
              (replicate 127 120 ++ char_codes "AT") CR eq_refl H eq_refl)
    as (Hd & Hr & _).
  split; [reflexivity|]. split; [exact H|]. split; [reflexivity|].
  split; [exact Hd|]. rewrite Hr, Hd. reflexivity.
Defined.

(** ** X7 *)

(** X7: a terminator is a point of synchronisation: whatever came before
    it, the task goes on exactly as a fresh task would, so the trace of a
    stream is the trace up to the terminator followed by the trace of the
    rest alone. *)
Theorem terminator_is_sync_point (stack : list Z) (ps1 ps2 : list poll) (t : Z) :
  length stack = 128%nat -> is_terminator t = true ->
  trace_of (run stack (ps1 ++ RxByte t :: ps2))
  = trace_of (run stack (ps1 ++ [RxByte t])) ++ trace_of (run stack ps2).
Proof.
  intros Hlen Ht. rewrite !(run_trace _ _ Hlen).
  rewrite (cons_middle (RxByte t) ps1 ps2), app_assoc, feed_all_app.
  cbn [snd]. f_equal. f_equal.
  rewrite feed_all_app. cbn [fst feed_all]. unfold feed. rewrite Ht.
  now destruct (fst (feed_all [] ps1)).
Qed.

Lemma terminator_is_sync_point_witness :
  length (replicate 128 255) = 128%nat /\ is_terminator LF = true /\
  trace_of (run (replicate 128 255)
     (map RxByte (replicate 130 120) ++ RxByte LF :: map RxByte [65; 84; CR]))
  = trace_of (run (replicate 128 255)
       (map RxByte (replicate 130 120) ++ [RxByte LF]))
    ++ trace_of (run (replicate 128 255) (map RxByte [65; 84; CR])).
Proof.
  split; [reflexivity|]. split; [reflexivity|].
  exact (terminator_is_sync_point (replicate 128 255)
           (map RxByte (replicate 130 120)) (map RxByte [65; 84; CR]) LF
           eq_refl eq_refl).
Defined.

(** * More about main.c *)

Lemma modem_events_app (t u : list sys_event) :
  modem_events (t ++ u) = modem_events t ++ modem_events u.
Proof. apply omap_app. Qed.

Lemma reported_app (t u : list sys_event) :
  reported (t ++ u) = reported t ++ reported u.
Proof. apply omap_app. Qed.

Lemma main_writes_app (t u : list sys_event) :
  main_writes (t ++ u) = main_writes t ++ main_writes u.
Proof. apply omap_app. Qed.

Lemma logged_commands_app (t u : list sys_event) :
  logged_commands (t ++ u) = logged_commands t ++ logged_commands u.
Proof. apply omap_app. Qed.

Lemma rx_store_indices_app (t u : list sys_event) :
  rx_store_indices (t ++ u) = rx_store_indices t ++ rx_store_indices u.
Proof. apply omap_app. Qed.

Lemma silences_app (t u : list sys_event) :
  silences (t ++ u) = (silences t + silences u)%nat.
Proof. unfold silences. now rewrite filter_app, length_app. Qed.

(** The steps of the fake modem task are none of main.c's. *)
Lemma modem_steps_read (mt : list event) :
  modem_events (map EvModem mt) = mt /\
  reported (map EvModem mt) = [] /\ main_writes (map EvModem mt) = [] /\
  logged_commands (map EvModem mt) = [] /\
  rx_store_indices (map EvModem mt) = [] /\ silences (map EvModem mt) = 0%nat.
Proof.
  induction mt as [|e mt (H1 & H2 & H3 & H4 & H5 & H6)]; [repeat split|].
  change (map EvModem (e :: mt)) with ([EvModem e] ++ map EvModem mt).
  rewrite modem_events_app, reported_app, main_writes_app, logged_commands_app,
    rx_store_indices_app, silences_app, H1, H2, H3, H4, H5, H6.
  repeat split.
Qed.

Lemma report_of_read (arrived : list Z) :
  modem_events (report_of arrived) = [] /\
  main_writes (report_of arrived) = [] /\
  logged_commands (report_of arrived) = [] /\
  (arrived = [] ->
   reported (report_of arrived) = [] /\ silences (report_of arrived) = 1%nat /\
   rx_store_indices (report_of arrived) = []) /\
  (arrived <> [] ->
   reported (report_of arrived)
   = [(Z.of_nat (min 127 (length arrived)), c_string (take 127 arrived))] /\
   silences (report_of arrived) = 0%nat /\
   rx_store_indices (report_of arrived) = [Z.of_nat (min 127 (length arrived))]).
Proof.
  unfold report_of. pose proof (length_take arrived 127) as Hl.
  destruct (take 127 arrived) as [|x data] eqn:Hd.
  - do 3 (split; [reflexivity|]). split.
    + intros _. repeat split.
    + intros Hne. destruct arrived; [contradiction | discriminate].
  - rewrite <- Hl. do 3 (split; [reflexivity|]). split.
    + intros ->. discriminate.
    + intros _. repeat split.
Qed.

(** The trace of one [send_at_command], read. *)
Lemma command_trace_read (sh bytes : list Z) (mt : list event) (arrived : list Z) :
  let t := [EvMain (MainSending sh); EvTx MODEM_UART_NUM bytes; EvDelay 200]
           ++ map EvModem mt ++ report_of arrived in
  modem_events t = mt /\ main_writes t = [(MODEM_UART_NUM, bytes)] /\
  logged_commands t = [sh] /\
  reported t = reported (report_of arrived) /\
  silences t = silences (report_of arrived) /\
  rx_store_indices t = rx_store_indices (report_of arrived).
Proof.
  intros t. subst t.
  destruct (modem_steps_read mt) as (H1 & H2 & H3 & H4 & H5 & H6).
  destruct (report_of_read arrived) as (G1 & G2 & G3 & _).
  rewrite !modem_events_app, !main_writes_app, !logged_commands_app,
    !reported_app, !silences_app, !rx_store_indices_app,
    H1, H2, H3, H4, H5, H6, G1, G2, G3.
  rewrite app_nil_r. repeat split.
Qed.

Lemma rx_buf_after_length (arrived buf : list Z) :
  length buf = 128%nat -> length (rx_buf_after arrived buf) = 128%nat.
Proof.
  intros Hbuf. unfold rx_buf_after.
  pose proof (length_take arrived 127) as Hl.
  destruct (take 127 arrived) as [|x data]; [exact Hbuf|].
  rewrite length_insert, length_app, length_drop. lia.
Qed.

(** The precision [(int)(strlen(cmd) - 2)] strips the last two bytes of a
    command of two bytes or more; for a shorter one the subtraction wraps,
    the precision is negative and nothing is stripped. *)
Lemma shown_command_spec (bytes : list Z) :
  ((2 <= length bytes)%nat -> Z.of_nat (length bytes) < 2 ^ 31 ->
   shown_command bytes = take (length bytes - 2) bytes) /\
  ((length bytes < 2)%nat -> shown_command bytes = bytes).
Proof.
  unfold shown_command, size_sub, int_of_size. split.
  - intros H2 Hmax.
    rewrite Z.mod_small by lia.
    destruct (Z.ltb_spec (Z.of_nat (length bytes) - 2) (2 ^ 31)); [|lia].
    destruct (Z.ltb_spec (Z.of_nat (length bytes) - 2) 0); [lia|].
    f_equal. lia.
  - intros H2. destruct bytes as [|x [|y l]]; [reflexivity..|simpl in H2; lia].
Qed.

Lemma respond_c_string (cmd : list Z) :
  c_string (respond cmd) = respond cmd /\ respond cmd <> [] /\
  take 127 (respond cmd) = respond cmd /\ drop 127 (respond cmd) = [].
Proof.
  destruct (canned_format _ (respond_canned cmd)) as (_ & _ & Hnz & Hlen).
  split; [now apply c_string_no_nul|].
  split; [intros E; rewrite E in Hlen; simpl in Hlen; lia|].
  split; [apply take_ge; lia | apply drop_ge; lia].
Qed.

(** A terminated command sent while [pending] lies in the fake modem's
    buffer and both wires are empty. *)
Lemma send_at_command_line (pending body : list Z) (s : system) :
  ready s pending -> uart_rx (modem s) = [] -> uart1_rx s = [] ->
  pending ++ body <> [] -> no_terminator body ->
  Forall (fun c => c <> NUL) body ->
  (length pending + length body < 127)%nat ->
  exists s' t,
    send_at_command (c_literal (body ++ [CR; LF])) s = Some (tt, s', t) /\
    clean s' /\
    logged_commands t = [body] /\
    main_writes t = [(MODEM_UART_NUM, body ++ [CR; LF])] /\
    dispatched (modem_events t) = [pending ++ body] /\
    responses (modem_events t) = [respond (c_string (pending ++ body))] /\
    reported t
    = [(Z.of_nat (length (respond (c_string (pending ++ body)))),
        respond (c_string (pending ++ body)))] /\
    silences t = 0%nat.
Proof.
  intros Hready Hrx Hrx1 Hne Hnt Hnz Hlen.
  assert (Hc : c_string (body ++ [CR; LF]) = body ++ [CR; LF]).
  { apply c_string_no_nul, Forall_app. split; [exact Hnz|].
    repeat constructor; discriminate. }
  destruct (send_at_command_running (body ++ [CR; LF]) [] s pending Hready)
    as (m' & Hm' & Hrxm' & Hrun).
  unfold c_literal. rewrite Hrun. clear Hrun.
  rewrite Hc, Hrx, Hrx1 in *. cbn [app] in *.
  replace (body ++ [CR; LF]) with (body ++ [CR] ++ [LF]) in Hm' |- * by reflexivity.
  rewrite app_assoc, (map_app _ (body ++ [CR]) [LF]) in Hm' |- *.
  rewrite (feed_all_line_from pending body CR) in Hm' |- * by auto.
  change (feed_all [] (map RxByte [LF])) with (@nil Z, @nil event) in Hm' |- *.
  cbn [fst snd] in Hm' |- *.
  destruct (store_run_silent body (length pending)) as (D1 & D2 & _ & D4 & _).
  rewrite app_nil_r, tx_bytes_app, D4. cbn [app].
  change (tx_bytes [Store ?i ?v; Dispatch ?a; Printf ?m; UartWrite ?p ?b])
    with (b ++ []).
  rewrite app_nil_r.
  destruct (respond_c_string (c_string (pending ++ body))) as (R1 & R2 & R3 & R4).
  eexists _, _. split; [reflexivity|].
  destruct Hready as (_ & _ & Hbuf).
  split.
  { unfold clean, ready. cbn [modem modem_running uart1_rx rx_buf].
    rewrite R4.
    split; [split; [reflexivity|split; [exact Hm'|]]|split; [exact Hrxm'|reflexivity]].
    now apply rx_buf_after_length. }
  match goal with
  | |- context [EvMain (MainSending ?sh) :: EvTx _ ?bytes :: EvDelay 200
                :: map EvModem ?mt ++ report_of ?arr] =>
    destruct (command_trace_read sh bytes mt arr) as (T1 & T2 & T3 & T4 & T5 & _)
  end.
  cbn [app] in T1, T2, T3, T4, T5.
  destruct (shown_command_spec ((body ++ [CR]) ++ [LF])) as (Hshown & _).
  rewrite T1, T2, T3, T4, T5, Hshown.
  2:{ rewrite !length_app. simpl. lia. }
  2:{ rewrite !length_app. simpl. lia. }
  destruct (report_of_read (respond (c_string (pending ++ body))))
    as (_ & _ & _ & _ & Hrep).
  destruct (Hrep R2) as (P1 & P2 & _).
  rewrite P1, P2, R3, R1, dispatched_app, responses_app, D1, D2.
  destruct (canned_format _ (respond_canned (c_string (pending ++ body))))
    as (_ & _ & _ & Hl).
  rewrite Nat.min_r by lia.
  split.
  { f_equal. rewrite !length_app. cbn [length].
    replace (length body + 1 + 1 - 2)%nat with (length body) by lia.
    rewrite <- app_assoc. now rewrite take_app_length. }
  split; [now rewrite <- app_assoc|]. repeat split.
Qed.

(** ** X8 *)

(** X8: while the fake modem task runs, [send_at_command] on any
    NUL-terminated command returns without a fault in either task: its
    one store [rx_buf[len] = 0] has [0 < len < 128], the fake modem's stores
    stay inside [line_buf], and afterwards the program is again between two
    commands with the fake modem's inbound stream used up. *)
Theorem send_at_command_is_safe (c r : list Z) (s : system) (pending : list Z) :
  ready s pending ->
  exists s' t pending',
    send_at_command (c ++ NUL :: r) s = Some (tt, s', t) /\
    ready s' pending' /\ uart_rx (modem s') = [] /\
    Forall (fun i => 0 < i < RX_BUF_SIZE) (rx_store_indices t) /\
    Forall (fun i => 0 <= i < LINE_BUF_SIZE) (store_indices (modem_events t)).
Proof.
  intros Hready.
  destruct (send_at_command_running c r s pending Hready)
    as (m' & Hm' & Hrx' & Hrun).
  destruct Hready as (_ & (_ & _ & _ & Hp) & Hbuf).
  eexists _, _, _. split; [exact Hrun|].
  match goal with
  | |- context [[EvMain (MainSending ?sh); EvTx _ ?bytes; EvDelay 200]
                ++ map EvModem ?mt ++ report_of ?arr] =>
    destruct (command_trace_read sh bytes mt arr) as (T1 & _ & _ & _ & _ & T6);
    destruct (report_of_read arr) as (_ & _ & _ & Hnone & Hsome);
    pose proof (length_take arr 127) as Hl;
    destruct (decide (arr = [])) as [E|E]
  end.
  all: rewrite T1, T6.
  all: split; [split; [reflexivity|split; [exact Hm'|now apply rx_buf_after_length]]|].
  all: split; [exact Hrx'|].
  all: split; [|eapply Forall_impl; [apply feed_all_store_indices; exact Hp|];
                unfold LINE_BUF_SIZE; simpl; intros; lia].
  - destruct (Hnone E) as (_ & _ & ->). constructor.
  - destruct (Hsome E) as (_ & _ & ->). repeat constructor; unfold RX_BUF_SIZE.
    + match goal with |- 0 < Z.of_nat (_ `min` length ?a) =>
        destruct a; [contradiction | simpl; lia] end.
    + lia.
Qed.

Lemma send_at_command_is_safe_witness :
  ready (System (World (char_codes "AT" ++ replicate 126 255) 2 0 [])
                true (replicate 300 65) (replicate 128 77))
        (char_codes "AT") /\
  exists s' t pending',
    send_at_command (char_codes "+CSQ" ++ NUL :: [])
      (System (World (char_codes "AT" ++ replicate 126 255) 2 0 [])
              true (replicate 300 65) (replicate 128 77))
    = Some (tt, s', t) /\
    ready s' pending' /\ uart_rx (modem s') = [] /\
    Forall (fun i => 0 < i < RX_BUF_SIZE) (rx_store_indices t) /\
    Forall (fun i => 0 <= i < LINE_BUF_SIZE) (store_indices (modem_events t)).
Proof.
  assert (H : ready (System (World (char_codes "AT" ++ replicate 126 255) 2 0 [])
                            true (replicate 300 65) (replicate 128 77))
                    (char_codes "AT")).
  { unfold ready, holds. simpl. repeat split; lia. }
  split; [exact H|].
  exact (send_at_command_is_safe (char_codes "+CSQ") [] _ _ H).
Defined.

(** ** X9 *)

(** X9: [send_at_command] writes its command on UART1 once and whole, up
    to the NUL.  What it logs as sent is the command without its last two
    bytes, whatever they are; for a command of fewer than two bytes
    [strlen(cmd) - 2] wraps around, the precision becomes negative and the
    whole command is logged. *)
Theorem send_at_command_sends_whole_command
    (c r : list Z) (s : system) (pending : list Z) :
  ready s pending ->
  main_writes (strace_of (send_at_command (c ++ NUL :: r) s))
  = [(MODEM_UART_NUM, c_string c)] /\
  ((2 <= length (c_string c))%nat -> Z.of_nat (length (c_string c)) < 2 ^ 31 ->
   logged_commands (strace_of (send_at_command (c ++ NUL :: r) s))
   = [take (length (c_string c) - 2) (c_string c)]) /\
  ((length (c_string c) < 2)%nat ->
   logged_commands (strace_of (send_at_command (c ++ NUL :: r) s))
   = [c_string c]).
Proof.
  intros Hready.
  destruct (send_at_command_running c r s pending Hready) as (m' & _ & _ & ->).
  cbn [strace_of].
  match goal with
  | |- context [[EvMain (MainSending ?sh); EvTx _ ?bytes; EvDelay 200]
                ++ map EvModem ?mt ++ report_of ?arr] =>
    destruct (command_trace_read sh bytes mt arr) as (_ & T2 & T3 & _)
  end.
  rewrite T2, T3. destruct (shown_command_spec (c_string c)) as (H1 & H2).
  split; [reflexivity|]. split.
  - intros Ha Hb. now rewrite H1.
  - intros Ha. now rewrite H2.
Qed.

Lemma send_at_command_sends_whole_command_witness :
  ready (System (World (replicate 128 255) 0 0 []) true [] (replicate 128 77)) [] /\
  (2 <= length (c_string (char_codes "ATZ")))%nat /\
  Z.of_nat (length (c_string (char_codes "ATZ"))) < 2 ^ 31 /\
  (length (c_string (char_codes "A")) < 2)%nat /\
  main_writes (strace_of (send_at_command (char_codes "ATZ" ++ NUL :: [])
     (System (World (replicate 128 255) 0 0 []) true [] (replicate 128 77))))
  = [(MODEM_UART_NUM, char_codes "ATZ")] /\
  logged_commands (strace_of (send_at_command (char_codes "ATZ" ++ NUL :: [])
     (System (World (replicate 128 255) 0 0 []) true [] (replicate 128 77))))
  = [char_codes "A"] /\
  logged_commands (strace_of (send_at_command (char_codes "A" ++ NUL :: [])
     (System (World (replicate 128 255) 0 0 []) true [] (replicate 128 77))))
  = [char_codes "A"].
Proof.
  assert (H : ready (System (World (replicate 128 255) 0 0 []) true []
                            (replicate 128 77)) []).
  { unfold ready, holds. simpl. repeat split; lia. }
  assert (H2 : (2 <= length (c_string (char_codes "ATZ")))%nat) by (simpl; lia).
  assert (H3 : Z.of_nat (length (c_string (char_codes "ATZ"))) < 2 ^ 31)
    by (simpl; lia).
  assert (H4 : (length (c_string (char_codes "A")) < 2)%nat) by (simpl; lia).
  destruct (send_at_command_sends_whole_command (char_codes "ATZ") [] _ _ H)
    as (Hw & Hlog & _).
  destruct (send_at_command_sends_whole_command (char_codes "A") [] _ _ H)
    as (_ & _ & Hshort).
  split; [exact H|]. split; [exact H2|]. split; [exact H3|]. split; [exact H4|].
  split; [exact Hw|]. split; [exact (Hlog H2 H3) | exact (Hshort H4)].
Defined.

(** ** X10 *)

(** X10: what [send_at_command] reports is what lies on UART1 RX when it
    reads: the bytes left there from before, then what the fake modem wrote
    during the call.  With nothing there it logs that no response was
    received and leaves [rx_buf] alone.  Otherwise it takes at most 127
    bytes, logs their number and their text up to the first NUL, and leaves
    the bytes beyond the 127th on the wire for the next call. *)
Theorem send_at_command_reports_what_arrived
    (c r : list Z) (s : system) (pending : list Z) :
  ready s pending ->
  uart1_rx <$> sfinal_of (send_at_command (c ++ NUL :: r) s)
  = Some (drop 127 (uart1_rx s ++ tx_bytes (modem_events
            (strace_of (send_at_command (c ++ NUL :: r) s))))) /\
  (uart1_rx s ++ tx_bytes (modem_events
      (strace_of (send_at_command (c ++ NUL :: r) s))) = [] ->
   reported (strace_of (send_at_command (c ++ NUL :: r) s)) = [] /\
   silences (strace_of (send_at_command (c ++ NUL :: r) s)) = 1%nat /\
   rx_buf <$> sfinal_of (send_at_command (c ++ NUL :: r) s) = Some (rx_buf s)) /\
  (uart1_rx s ++ tx_bytes (modem_events
      (strace_of (send_at_command (c ++ NUL :: r) s))) <> [] ->
   reported (strace_of (send_at_command (c ++ NUL :: r) s))
   = [(Z.of_nat (min 127 (length (uart1_rx s ++ tx_bytes (modem_events
          (strace_of (send_at_command (c ++ NUL :: r) s)))))),
       c_string (take 127 (uart1_rx s ++ tx_bytes (modem_events
          (strace_of (send_at_command (c ++ NUL :: r) s))))))] /\
   silences (strace_of (send_at_command (c ++ NUL :: r) s)) = 0%nat).
Proof.
  intros Hready.
  destruct (send_at_command_running c r s pending Hready) as (m' & _ & _ & ->).
  cbn [strace_of sfinal_of fmap option_fmap option_map uart1_rx rx_buf].
  match goal with
  | |- context [[EvMain (MainSending ?sh); EvTx _ ?bytes; EvDelay 200]
                ++ map EvModem ?mt ++ report_of ?arr] =>
    destruct (command_trace_read sh bytes mt arr) as (T1 & _ & _ & T4 & T5 & _);
    destruct (report_of_read arr) as (_ & _ & _ & Hnone & Hsome)
  end.
  rewrite T1, T4, T5. split; [reflexivity|]. split.
  - intros E. destruct (Hnone E) as (-> & -> & _).
    repeat split. unfold rx_buf_after. now rewrite E.
  - intros E. destruct (Hsome E) as (-> & -> & _). now split.
Qed.

Lemma send_at_command_reports_what_arrived_witness :
  ready (System (World (replicate 128 255) 0 0 []) true
                (replicate 130 65 ++ [0; 66]) (replicate 128 77)) [] /\
  ready (System (World (replicate 128 255) 0 0 []) true [] (replicate 128 77)) [] /\
  uart1_rx <$> sfinal_of (send_at_command (char_codes "AT" ++ NUL :: [])
     (System (World (replicate 128 255) 0 0 []) true
             (replicate 130 65 ++ [0; 66]) (replicate 128 77)))
  = Some [65; 65; 65; 0; 66] /\
  reported (strace_of (send_at_command (char_codes "AT" ++ NUL :: [])
     (System (World (replicate 128 255) 0 0 []) true
             (replicate 130 65 ++ [0; 66]) (replicate 128 77))))
  = [(127, replicate 127 65)] /\
  silences (strace_of (send_at_command (char_codes "AT" ++ NUL :: [])
     (System (World (replicate 128 255) 0 0 []) true [] (replicate 128 77))))
  = 1%nat /\
  rx_buf <$> sfinal_of (send_at_command (char_codes "AT" ++ NUL :: [])
     (System (World (replicate 128 255) 0 0 []) true [] (replicate 128 77)))
  = Some (replicate 128 77).
Proof.
  assert (H : ready (System (World (replicate 128 255) 0 0 []) true
                            (replicate 130 65 ++ [0; 66]) (replicate 128 77)) []).
  { unfold ready, holds. simpl. repeat split; lia. }
  assert (H' : ready (System (World (replicate 128 255) 0 0 []) true []
                             (replicate 128 77)) []).
  { unfold ready, holds. simpl. repeat split; lia. }
  destruct (send_at_command_reports_what_arrived (char_codes "AT") [] _ _ H)
    as (Hrest & _ & Hsome).
  destruct (send_at_command_reports_what_arrived (char_codes "AT") [] _ _ H')
    as (_ & Hnone & _).
  destruct (Hnone eq_refl) as (_ & Hsil & Hbuf).
  split; [exact H|]. split; [exact H'|]. split; [exact Hrest|].
  split; [exact (proj1 (Hsome ltac:(discriminate)))|].
  split; [exact Hsil | exact Hbuf].
Defined.

(** ** X11 *)

(** X11: the round trip of one command over the loopback.  Between two
    commands and with nothing on the wires, a command that is a non-empty
    body without terminator or NUL byte, shorter than 127 bytes, followed
    by "\r\n", is logged as its body, reaches [process_line] as its body,
    and [send_at_command] reports exactly the table's response for the body
    with its length; the program is again between two commands with both
    wires empty. *)
Theorem command_round_trip (body : list Z) (s : system) :
  clean s ->
  body <> [] -> no_terminator body -> Forall (fun c => c <> NUL) body ->
  (length body < 127)%nat ->
  exists s' t,
    send_at_command (c_literal (body ++ [CR; LF])) s = Some (tt, s', t) /\
    clean s' /\
    logged_commands t = [body] /\
    dispatched (modem_events t) = [body] /\
    reported t = [(Z.of_nat (length (respond body)), respond body)] /\
    silences t = 0%nat.
Proof.
  intros (Hready & Hrx & Hrx1) Hne Hnt Hnz Hlen.
  destruct (send_at_command_line [] body s Hready Hrx Hrx1)
    as (s' & t & Hrun & Hclean & Hlog & _ & Hd & _ & Hrep & Hsil); auto.
  cbn [app] in *. rewrite (c_string_no_nul body Hnz) in Hrep.
  exists s', t. auto 10.
Qed.

Lemma command_round_trip_witness :
  clean (System (World (replicate 128 255) 0 0 []) true [] (replicate 128 77)) /\
  char_codes "AT+CSQ" <> [] /\ no_terminator (char_codes "AT+CSQ") /\
  Forall (fun c => c <> NUL) (char_codes "AT+CSQ") /\
  (length (char_codes "AT+CSQ") < 127)%nat /\
  exists s' t,
    send_at_command (c_literal (char_codes "AT+CSQ" ++ [CR; LF]))
      (System (World (replicate 128 255) 0 0 []) true [] (replicate 128 77))
    = Some (tt, s', t) /\
    clean s' /\
    logged_commands t = [char_codes "AT+CSQ"] /\
    dispatched (modem_events t) = [char_codes "AT+CSQ"] /\
    reported t = [(19, RESP_CSQ)] /\
    silences t = 0%nat.
Proof.
  assert (H : clean (System (World (replicate 128 255) 0 0 []) true []
                            (replicate 128 77))).
  { unfold clean, ready, holds. simpl. repeat split; lia. }
  assert (H1 : char_codes "AT+CSQ" <> []) by discriminate.
  assert (H2 : no_terminator (char_codes "AT+CSQ")) by (repeat constructor).
  assert (H3 : Forall (fun c => c <> NUL) (char_codes "AT+CSQ"))
    by (repeat constructor; discriminate).
  assert (H4 : (length (char_codes "AT+CSQ") < 127)%nat) by (simpl; lia).
  split; [exact H|]. split; [exact H1|]. split; [exact H2|].
  split; [exact H3|]. split; [exact H4|].
  exact (command_round_trip (char_codes "AT+CSQ") _ H H1 H2 H3 H4).
Defined.

(** ** X12 *)

(** X12: a command sent without its terminator gets no response and is
    not lost either: [send_at_command] reports that nothing was received,
    the bytes stay in the fake modem's buffer, and the next command is
    dispatched and answered as the two glued together. *)
Theorem unterminated_command_sticks (body next : list Z) (s : system) :
  clean s ->
  body <> [] -> no_terminator (body ++ next) ->
  Forall (fun c => c <> NUL) (body ++ next) ->
  (length (body ++ next) < 127)%nat ->
  exists s1 t1 s2 t2,
    send_at_command (c_literal body) s = Some (tt, s1, t1) /\
    reported t1 = [] /\ silences t1 = 1%nat /\
    dispatched (modem_events t1) = [] /\
    send_at_command (c_literal (next ++ [CR; LF])) s1 = Some (tt, s2, t2) /\
    dispatched (modem_events t2) = [body ++ next] /\
    reported t2
    = [(Z.of_nat (length (respond (body ++ next))), respond (body ++ next))] /\
    clean s2.
Proof.
  intros (Hready & Hrx & Hrx1) Hne Hnt Hnz Hlen.
  apply Forall_app in Hnt as (Hnt1 & Hnt2).
  pose proof Hnz as Hnz'. apply Forall_app in Hnz' as (Hnz1 & Hnz2).
  rewrite length_app in Hlen.
  destruct (send_at_command_running body [] s [] Hready)
    as (m1 & Hm1 & Hrxm1 & Hrun1).
  rewrite (c_string_no_nul body Hnz1), Hrx, Hrx1 in *. cbn [app] in *.
  rewrite (feed_all_body body []) in * by (simpl; auto; lia).
  cbn [fst snd app length] in *.
  destruct (store_run_silent body 0) as (D1 & _ & _ & D4 & _).
  rewrite D4 in Hrun1.
  assert (Hready1 : ready (System m1 true [] (rx_buf s)) body).
  { destruct Hready as (_ & _ & Hbuf). repeat split; auto. apply Hm1. apply Hm1.
    apply Hm1. apply Hm1. }
  destruct (send_at_command_line body next (System m1 true [] (rx_buf s))
              Hready1 Hrxm1 eq_refl)
    as (s2 & t2 & Hrun2 & Hclean2 & _ & _ & Hd2 & _ & Hrep2 & _); auto.
  { destruct body; [contradiction | discriminate]. }
  rewrite (c_string_no_nul _ Hnz) in Hrep2.
  eexists _, _, s2, t2. split; [exact Hrun1|].
  match goal with
  | |- context [EvMain (MainSending ?sh) :: EvTx _ ?bytes :: EvDelay 200
                :: map EvModem ?mt ++ report_of ?arr] =>
    destruct (command_trace_read sh bytes mt arr) as (T1 & _ & _ & T4 & T5 & _)
  end.
  cbn [app] in T1, T4, T5. rewrite T1, T4, T5, D1.
  split; [reflexivity|]. split; [reflexivity|]. split; [reflexivity|].
  split; [exact Hrun2|]. auto.
Qed.

Lemma unterminated_command_sticks_witness :
  clean (System (World (replicate 128 255) 0 0 []) true [] (replicate 128 77)) /\
  char_codes "AT" <> [] /\
  no_terminator (char_codes "AT" ++ char_codes "AT") /\
  Forall (fun c => c <> NUL) (char_codes "AT" ++ char_codes "AT") /\
  (length (char_codes "AT" ++ char_codes "AT") < 127)%nat /\
  exists s1 t1 s2 t2,
    send_at_command (c_literal (char_codes "AT"))
      (System (World (replicate 128 255) 0 0 []) true [] (replicate 128 77))
    = Some (tt, s1, t1) /\
    reported t1 = [] /\ silences t1 = 1%nat /\
    dispatched (modem_events t1) = [] /\
    send_at_command (c_literal (char_codes "AT" ++ [CR; LF])) s1
    = Some (tt, s2, t2) /\
    dispatched (modem_events t2) = [char_codes "ATAT"] /\
    reported t2 = [(9, RESP_ERROR)] /\
    clean s2.
Proof.
  assert (H : clean (System (World (replicate 128 255) 0 0 []) true []
                            (replicate 128 77))).
  { unfold clean, ready, holds. simpl. repeat split; lia. }
  assert (H1 : char_codes "AT" <> []) by discriminate.
  assert (H2 : no_terminator (char_codes "AT" ++ char_codes "AT"))
    by (repeat constructor).
  assert (H3 : Forall (fun c => c <> NUL) (char_codes "AT" ++ char_codes "AT"))
    by (repeat constructor; discriminate).
  assert (H4 : (length (char_codes "AT" ++ char_codes "AT") < 127)%nat)
    by (simpl; lia).
  split; [exact H|]. split; [exact H1|]. split; [exact H2|].
  split; [exact H3|]. split; [exact H4|].
  exact (unterminated_command_sticks (char_codes "AT") (char_codes "AT") _
           H H1 H2 H3 H4).
Defined.

Lemma vTaskDelay_clean (ms : Z) (s : system) :
  clean s ->
  exists s', vTaskDelay ms s = Some (tt, s', [EvDelay ms]) /\ clean s'.
Proof.
  intros ((Hrun & Hm & Hbuf) & Hrx & Hrx1).
  destruct (vTaskDelay_running ms s [] Hrun Hm) as (m' & Hd & Hm' & Hrx').
  rewrite Hrx, Hrx1 in *. cbn [feed_all fst snd app map] in *.
  eexists. split; [exact Hd|].
  unfold clean, ready. cbn [modem modem_running uart1_rx rx_buf]. auto.
Qed.

Lemma round_trip_of (body : list Z) (s : system) (report : Z * list Z) :
  clean s ->
  body <> [] -> no_terminator body -> Forall (fun c => c <> NUL) body ->
  (length body < 127)%nat ->
  (Z.of_nat (length (respond body)), respond body) = report ->
  exists s' t,
    send_at_command (c_literal (body ++ [CR; LF])) s = Some (tt, s', t) /\
    clean s' /\ logged_commands t = [body] /\
    dispatched (modem_events t) = [body] /\
    reported t = [report] /\ silences t = 0%nat.
Proof.
  intros (Hready & Hrx & Hrx1) Hne Hnt Hnz Hlen <-.
  destruct (send_at_command_line [] body s Hready Hrx Hrx1)
    as (s' & t & Hrun & Hclean & Hlog & _ & Hd & _ & Hrep & Hsil); auto.
  cbn [app] in *. rewrite (c_string_no_nul body Hnz) in Hrep.
  exists s', t. auto 10.
Qed.

(** One turn of [app_main]'s loop, started between two commands. *)
Lemma app_main_cycle_clean (s : system) :
  clean s ->
  exists s' t,
    app_main_cycle s = Some (tt, s', t) /\ clean s' /\
    logged_commands t = cycle_commands /\
    dispatched (modem_events t) = cycle_commands /\
    reported t = cycle_reports /\ silences t = 0%nat.
Proof.
  intros H0.
  destruct (round_trip_of (char_codes "AT") s (6, RESP_OK) H0)
    as (s1 & t1 & R1 & C1 & L1 & D1 & P1 & S1);
    [discriminate | repeat constructor | repeat constructor; discriminate
    | simpl; lia | reflexivity |].
  destruct (vTaskDelay_clean 2000 s1 C1) as (s2 & R2 & C2).
  destruct (round_trip_of (char_codes "AT+CSQ") s2 (19, RESP_CSQ) C2)
    as (s3 & t3 & R3 & C3 & L3 & D3 & P3 & S3);
    [discriminate | repeat constructor | repeat constructor; discriminate
    | simpl; lia | reflexivity |].
  destruct (vTaskDelay_clean 2000 s3 C3) as (s4 & R4 & C4).
  destruct (round_trip_of (char_codes "AT+UNKNOWN") s4 (9, RESP_ERROR) C4)
    as (s5 & t5 & R5 & C5 & L5 & D5 & P5 & S5);
    [discriminate | repeat constructor | repeat constructor; discriminate
    | simpl; lia | reflexivity |].
  destruct (vTaskDelay_clean 2000 s5 C5) as (s6 & R6 & C6).
  unfold app_main_cycle.
  erewrite sbind_ok by exact R1. erewrite sbind_ok by exact R2.
  erewrite sbind_ok by exact R3. erewrite sbind_ok by exact R4.
  erewrite sbind_ok by exact R5. rewrite R6.
  eexists _, _. split; [reflexivity|]. split; [exact C6|].
  rewrite !logged_commands_app, !modem_events_app, !dispatched_app,
    !reported_app, !silences_app, L1, L3, L5, D1, D3, D5, P1, P3, P5, S1, S3, S5.
  repeat split.
Qed.

Lemma app_main_loop_clean (cycles : nat) :
  forall s,
    clean s ->
    exists s' t,
      app_main_loop cycles s = Some (tt, s', t) /\ clean s' /\
      logged_commands t = concat (replicate cycles cycle_commands) /\
      dispatched (modem_events t) = concat (replicate cycles cycle_commands) /\
      reported t = concat (replicate cycles cycle_reports) /\
      silences t = 0%nat.
Proof.
  induction cycles as [|k IH]; intros s Hs.
  - exists s, []. split; [reflexivity|]. split; [exact Hs|]. repeat split.
  - destruct (app_main_cycle_clean s Hs) as (s1 & t1 & R1 & C1 & L1 & D1 & P1 & S1).
    destruct (IH s1 C1) as (s2 & t2 & R2 & C2 & L2 & D2 & P2 & S2).
    cbn [app_main_loop]. erewrite sbind_ok by exact R1. rewrite R2.
    eexists _, _. split; [reflexivity|]. split; [exact C2|].
    rewrite logged_commands_app, modem_events_app, dispatched_app,
      reported_app, silences_app, L1, L2, D1, D2, P1, P2, S1, S2.
    repeat split.
Qed.

(** ** X13 *)

(** X13: the whole program.  From power-on, whatever the two stacks held,
    [app_main] runs any number of turns of its loop without a fault; its
    first ten steps set up UART1, then UART2 with the same line settings,
    and create the fake modem task, before anything is sent; in every turn
    it logs and sends "AT", "AT+CSQ" and "AT+UNKNOWN", the fake modem dispatches
    exactly these three lines, and main.c reports 6 bytes "\r\nOK\r\n", 19
    bytes "\r\n+CSQ: 20,99\r\nOK\r\n" and 9 bytes "\r\nERROR\r\n"; it never
    reports that no response was received. *)
Theorem app_main_reports_every_cycle
    (cycles : nat) (modem_stack main_stack : list Z) :
  length modem_stack = 128%nat -> length main_stack = 128%nat ->
  exists s' t,
    app_main cycles (power_on modem_stack main_stack) = Some (tt, s', t) /\
    clean s' /\
    logged_commands t = concat (replicate cycles cycle_commands) /\
    dispatched (modem_events t) = concat (replicate cycles cycle_commands) /\
    reported t = concat (replicate cycles cycle_reports) /\
    silences t = 0%nat /\
    take 10 t = setup_steps /\
    main_uart_cfg = fake_modem_uart_cfg.
Proof.
  intros Hm Hs.
  set (s0 := System (World modem_stack 0 0 []) true [] main_stack).
  assert (H0 : clean s0).
  { unfold clean, ready, holds. cbn. repeat split; auto; lia. }
  destruct (vTaskDelay_clean 100 s0 H0) as (s1 & R1 & C1).
  destruct (app_main_loop_clean cycles s1 C1)
    as (s2 & t2 & R2 & C2 & L2 & D2 & P2 & S2).
  unfold app_main, fake_modem_start.
  do 5 (erewrite sbind_ok by reflexivity).
  erewrite (sbind_ok _ _ _ s0).
  2:{ do 4 (erewrite sbind_ok by reflexivity). reflexivity. }
  erewrite sbind_ok by exact R1. erewrite sbind_ok by reflexivity.
  rewrite R2. eexists _, _. split; [reflexivity|]. split; [exact C2|].
  rewrite !logged_commands_app, !modem_events_app, !dispatched_app,
    !reported_app, !silences_app, L2, D2, P2, S2.
  repeat split.
Qed.

Lemma app_main_reports_every_cycle_witness :
  length (replicate 128 255) = 128%nat /\ length (replicate 128 77) = 128%nat /\
  exists s' t,
    app_main 2 (power_on (replicate 128 255) (replicate 128 77))
    = Some (tt, s', t) /\
    clean s' /\
    logged_commands t = concat (replicate 2 cycle_commands) /\
    dispatched (modem_events t) = concat (replicate 2 cycle_commands) /\
    reported t = concat (replicate 2 cycle_reports) /\
    silences t = 0%nat /\
    take 10 t = setup_steps /\
    main_uart_cfg = fake_modem_uart_cfg.
Proof.
  split; [reflexivity|]. split; [reflexivity|].
  exact (app_main_reports_every_cycle 2 (replicate 128 255) (replicate 128 77)
           eq_refl eq_refl).
Defined.

(** * The configuration headers *)

(** ** X14 *)

(** X14: board_profile.h includes a board header exactly when one and only
    one of the three board macros is defined, and then that board's header;
    with two or three defined, or none, the build stops.  As the file
    stands it selects the Feather header, and defining another board on the
    command line stops the build. *)
Theorem board_profile_selects_exactly_one :
  (forall (xiao feather metro : bool) (h : board_header),
     select_board xiao feather metro = Included h <->
     (xiao, feather, metro)
     = match h with
       | board_xiao_esp32s3_h => (true, false, false)
       | board_feather_esp32s3_h => (false, true, false)
       | board_metro_esp32s3_h => (false, false, true)
       end) /\
  board_profile false false = Included board_feather_esp32s3_h /\
  (forall (xiao metro : bool),
     xiao = true \/ metro = true ->
     board_profile xiao metro = CppError "Select only one board profile.").
Proof.
  split; [|split; [reflexivity|]].
  - intros [] [] [] []; cbn; split; intros H; congruence.
  - intros [] [] [H|H]; try discriminate; reflexivity.
Qed.

Lemma board_profile_selects_exactly_one_witness :
  (true = true \/ false = true) /\
  select_board false false true = Included board_metro_esp32s3_h /\
  board_profile true false = CppError "Select only one board profile.".
Proof.
  destruct board_profile_selects_exactly_one as (Hsel & _ & Herr).
  split; [left; reflexivity|]. split.
  - apply (Hsel false false true board_metro_esp32s3_h). reflexivity.
  - exact (Herr true false (or_introl eq_refl)).
Defined.

(** ** X15 *)

(** X15: app_config.h.  With the toggles as the file sets them (camera and
    audio off) its checks pass on every board.  Whenever it is accepted, an
    enabled camera has its hardware and enabled audio has its BCLK and WS
    pins mapped, and in either memory tier the RX ring is twice the TX
    ring, the TX ring holds a modem line of [MODEM_LINE_MAX] bytes and a
    JSON document fits an HTTP response.  The large tier needs PSRAM of at
    least 8 MB, so the Feather (2 MB) gets the small one; and on the
    Feather, turning on the camera or the audio stops the build. *)
Theorem app_config_checks :
  (forall b : board_caps, app_config b shipped_features = Included (memory_knobs b)) /\
  (forall (b : board_caps) (f : features) (k : knobs),
     app_config b f = Included k ->
     (FEATURE_CAMERA f <> 0 -> HAS_CAMERA b <> 0) /\
     (FEATURE_AUDIO f <> 0 -> 0 <= PIN_I2S_BCLK b /\ 0 <= PIN_I2S_WS b) /\
     RX_RING_BYTES k = 2 * TX_RING_BYTES k /\
     MODEM_LINE_MAX <= TX_RING_BYTES k /\
     JSON_DOC_BYTES k <= HTTP_RX_MAX k /\
     (RX_RING_BYTES k = 8192 <-> HAS_PSRAM b <> 0 /\ 8 <= MAX_PSRAM_MB b)) /\
  app_config feather_caps shipped_features = Included (Knobs 4096 2048 8192 6144) /\
  app_config xiao_caps shipped_features = Included (Knobs 8192 4096 16384 16384) /\
  (forall f : features,
     FEATURE_CAMERA f <> 0 \/ FEATURE_AUDIO f <> 0 ->
     exists msg, app_config feather_caps f = CppError msg).
Proof.
  split; [reflexivity|]. split; [|split; [reflexivity|split; [reflexivity|]]].
  - intros [psram mb cam bclk ws] [fc fa] k. unfold app_config, memory_knobs, cpp_true.
    cbn [HAS_PSRAM MAX_PSRAM_MB HAS_CAMERA PIN_I2S_BCLK PIN_I2S_WS
         FEATURE_CAMERA FEATURE_AUDIO].
    destruct (Z.eqb_spec fc 0), (Z.eqb_spec cam 0), (Z.eqb_spec fa 0),
      (Z.ltb_spec bclk 0), (Z.ltb_spec ws 0), (Z.eqb_spec psram 0),
      (Z.geb_spec mb 8); cbn; intros Hk; inversion Hk; subst; cbn;
      unfold MODEM_LINE_MAX; repeat split; intros; try lia; try discriminate.
  - intros [fc fa] Hon. unfold app_config, cpp_true, feather_caps.
    cbn [HAS_CAMERA PIN_I2S_BCLK PIN_I2S_WS FEATURE_CAMERA FEATURE_AUDIO] in *.
    destruct (Z.eqb_spec fc 0), (Z.eqb_spec fa 0); cbn; eauto.
    destruct Hon; contradiction.
Qed.

Lemma app_config_checks_witness :
  app_config (BoardCaps 1 16 1 5 6) (Features 1 1)
  = Included (Knobs 8192 4096 16384 16384) /\
  FEATURE_CAMERA (Features 1 1) <> 0 /\ FEATURE_AUDIO (Features 1 1) <> 0 /\
  HAS_CAMERA (BoardCaps 1 16 1 5 6) <> 0 /\
  0 <= PIN_I2S_BCLK (BoardCaps 1 16 1 5 6) /\
  (exists msg, app_config feather_caps (Features 0 1) = CppError msg).
Proof.
  destruct app_config_checks as (_ & Hok & _ & _ & Hstop).
  assert (H : app_config (BoardCaps 1 16 1 5 6) (Features 1 1)
              = Included (Knobs 8192 4096 16384 16384)) by reflexivity.
  assert (Hc : FEATURE_CAMERA (Features 1 1) <> 0) by discriminate.
  assert (Ha : FEATURE_AUDIO (Features 1 1) <> 0) by discriminate.
  destruct (Hok _ _ _ H) as (Hcam & Haud & _).
  split; [exact H|]. split; [exact Hc|]. split; [exact Ha|].
  split; [exact (Hcam Hc)|]. split; [exact (proj1 (Haud Ha))|].
  exact (Hstop (Features 0 1) (or_intror Ha)).
Defined.

(** * More about [process_line] and the start of the task *)

(** ** X16 *)

(** X16: [process_line] on a NUL-terminated array leaves the task's state
    alone, logs the C string and writes exactly one response; the response
    tells the command: it is the OK response exactly for "AT", the signal
    quality response exactly for "AT+CSQ", and the ERROR response exactly
    for every other string.  On an array without a NUL it runs off the
    end. *)
Theorem process_line_answer_tells_command :
  (forall (s r : list Z) (w : world),
     exists resp,
       process_line (s ++ NUL :: r) w
       = Some (tt, w, [Printf (MsgReceived (c_string s));
                       UartWrite FAKE_MODEM_UART_NUM resp]) /\
       (resp = RESP_OK <-> c_string s = CMD_AT) /\
       (resp = RESP_CSQ <-> c_string s = CMD_AT_CSQ) /\
       (resp = RESP_ERROR <-> c_string s <> CMD_AT /\ c_string s <> CMD_AT_CSQ)) /\
  (forall (s : list Z) (w : world),
     Forall (fun c => c <> NUL) s -> process_line s w = None).
Proof.
  split.
  - intros s r w. exists (respond (c_string s)).
    split; [apply process_line_spec|]. unfold respond.
    destruct (decide (c_string s = CMD_AT)) as [E|E].
    + rewrite E. split; [split; reflexivity|].
      split; [split; discriminate|].
      split; [discriminate | intros (Hx & _); contradiction].
    + destruct (decide (c_string s = CMD_AT_CSQ)) as [E'|E'].
      * rewrite E'. split; [split; discriminate|].
        split; [split; reflexivity|].
        split; [discriminate | intros (_ & Hx); contradiction].
      * split; [split; [discriminate | contradiction]|].
        split; [split; [discriminate | contradiction]|].
        split; [split; assumption | reflexivity].
  - intros s w Hs. unfold process_line, printf_received, bind, lift.
    now rewrite (strlen_no_nul s Hs).
Qed.

Lemma process_line_answer_tells_command_witness :
  Forall (fun c => c <> NUL) (char_codes "AT") /\
  process_line (char_codes "at" ++ NUL :: char_codes "AT")
               (boot (replicate 128 255) [])
  = Some (tt, boot (replicate 128 255) [],
          [Printf (MsgReceived (char_codes "at"));
           UartWrite FAKE_MODEM_UART_NUM RESP_ERROR]) /\
  process_line (char_codes "AT") (boot (replicate 128 255) []) = None.
Proof.
  assert (H : Forall (fun c => c <> NUL) (char_codes "AT"))
    by (repeat constructor; discriminate).
  destruct process_line_answer_tells_command as (Hok & Hfault).
  destruct (Hok (char_codes "at") (char_codes "AT") (boot (replicate 128 255) []))
    as (resp & Hrun & _ & _ & Herr).
  assert (E : resp = RESP_ERROR) by (apply Herr; split; discriminate).
  rewrite E in Hrun.
  split; [exact H|]. split; [exact Hrun|].
  exact (Hfault (char_codes "AT") (boot (replicate 128 255) []) H).
Defined.

(** ** X17 *)

(** X17: the task reads none of its locals before it has written them:
    started on any contents of [line_buf], [line_pos] and [byte], it never
    faults, and two tasks given the same inbound stream emit the same trace
    and end with the same [line_pos] and the same bytes in the first
    [line_pos] cells of [line_buf]. *)
Theorem task_ignores_uninitialised_locals (w1 w2 : world) (fuel : nat) :
  length (line_buf w1) = 128%nat -> length (line_buf w2) = 128%nat ->
  uart_rx w1 = uart_rx w2 ->
  exists w1' w2' t,
    fake_modem_task fuel w1 = Some (tt, w1', t) /\
    fake_modem_task fuel w2 = Some (tt, w2', t) /\
    line_pos w1' = line_pos w2' /\
    take (Z.to_nat (line_pos w1')) (line_buf w1')
    = take (Z.to_nat (line_pos w2')) (line_buf w2') /\
    uart_rx w1' = uart_rx w2'.
Proof.
  intros H1 H2 Hrx.
  assert (Hstart : forall w, length (line_buf w) = 128%nat ->
            holds (World (line_buf w) 0 (byte w) (uart_rx w)) []).
  { intros w Hw. unfold holds. cbn. repeat split; auto; lia. }
  destruct (task_loop_refines fuel _ [] (Hstart w1 H1))
    as (w1' & R1 & (_ & P1 & T1 & _) & X1).
  destruct (task_loop_refines fuel _ [] (Hstart w2 H2))
    as (w2' & R2 & (_ & P2 & T2 & _) & X2).
  cbn [uart_rx] in *. rewrite <- Hrx in *.
  exists w1', w2', (snd (feed_all [] (take fuel (uart_rx w1)))).
  unfold fake_modem_task, bind, set_line_pos. rewrite <- Hrx, R1, R2.
  split; [reflexivity|]. split; [reflexivity|].
  split; [congruence|]. split; [|congruence].
  rewrite P1, P2, !Nat2Z.id. congruence.
Qed.

Lemma task_ignores_uninitialised_locals_witness :
  length (line_buf (World (replicate 128 255) 99 7
                          (map RxByte [65; 84; CR; 88]))) = 128%nat /\
  length (line_buf (World (replicate 128 0) (-5) 13
                          (map RxByte [65; 84; CR; 88]))) = 128%nat /\
  exists w1' w2' t,
    fake_modem_task 4 (World (replicate 128 255) 99 7
                             (map RxByte [65; 84; CR; 88])) = Some (tt, w1', t) /\
    fake_modem_task 4 (World (replicate 128 0) (-5) 13
                             (map RxByte [65; 84; CR; 88])) = Some (tt, w2', t) /\
    line_pos w1' = line_pos w2' /\
    take (Z.to_nat (line_pos w1')) (line_buf w1')
    = take (Z.to_nat (line_pos w2')) (line_buf w2') /\
    uart_rx w1' = uart_rx w2'.
Proof.
  split; [reflexivity|]. split; [reflexivity|].
  exact (task_ignores_uninitialised_locals
           (World (replicate 128 255) 99 7 (map RxByte [65; 84; CR; 88]))
           (World (replicate 128 0) (-5) 13 (map RxByte [65; 84; CR; 88]))
           4 eq_refl eq_refl eq_refl).
Defined.
